(** * ESP32-OTAManager: a shallow embedding of the update coordinator

    The development follows the C++ sources:
    - [src/OTAManager.cpp] (class [OTAManager], all static members),
    - [examples/.../tasks/OTATask.cpp] (class [OTATask], the update task
      and its four lifecycle handlers),
    - [examples/.../tasks/SensorTask.cpp] ([suspend]/[resume] only).

    Static members and function-local statics become fields of one
    [World] record that every operation threads explicitly.  Everything a
    function does to the outside (taking a guard, logging, calling into
    ArduinoOTA, feeding the watchdog, reading link state) is appended to
    the [trace] of the world, so that "what was called, in which order,
    under which lock" is a property of a list.  A computation that
    executes an integer division by zero has no result ([None]). *)

From Stdlib Require Import ZArith List String Bool Lia.
Import ListNotations.
Open Scope string_scope.
Open Scope Z_scope.

(** ** Machine integers *)

(** [unsigned int] and [unsigned long] are 32 bits wide on the ESP32. *)
Definition UINT_MAX1 : Z := 2 ^ 32.
Definition to_uint (z : Z) : Z := z mod UINT_MAX1.

(** Conversion of an [unsigned int] to [int] (two's complement), and
    [int] addition and subtraction with their wrap-around. *)
Definition to_int (z : Z) : Z :=
  let u := z mod UINT_MAX1 in if u <? 2 ^ 31 then u else u - UINT_MAX1.
Definition int_add (a b : Z) : Z := to_int (a + b).
Definition int_sub (a b : Z) : Z := to_int (a - b).

(** ** Identities, events, environment *)

(** A callback is identified by the name of the function (or lambda) it
    points to; a [SemaphoreHandle_t] is either null or a handle. *)
Definition Fn := string.
Definition Handle := nat.

Inductive LogLevel := LOG_E | LOG_W | LOG_I | LOG_D | LOG_NET | LOG_PROG.

(** [ota_error_t]; [OTA_OTHER] stands for a value outside the enumeration
    (the [default:] branch of the switches). *)
Inductive ota_error_t :=
| OTA_AUTH_ERROR | OTA_BEGIN_ERROR | OTA_CONNECT_ERROR
| OTA_RECEIVE_ERROR | OTA_END_ERROR | OTA_OTHER (code : Z).

(** The four callback slots of the transfer library. *)
Inductive Slot := SlotStart | SlotEnd | SlotProgress | SlotError.

Inductive Event :=
| EvCreateMutex (result : option Handle) (* xSemaphoreCreateMutex *)
| EvTake (h : option Handle)             (* guard constructed on h *)
| EvGive (h : option Handle)             (* guard destroyed *)
| EvLog (lvl : LogLevel) (tag msg : string)
| EvOtaSetHostname (h : string)
| EvOtaSetPassword (p : string)
| EvOtaSetPort (p : Z)
| EvOtaOn (k : Slot) (cb : Fn)           (* ArduinoOTA.onStart(cb), ... *)
| EvOtaBegin
| EvOtaHandle                            (* ArduinoOTA.handle() *)
| EvNetCheck (cb : Fn) (ready : bool)    (* networkCheckCallback() *)
| EvEthLinkSpeed | EvEthLocalIP          (* ETH.linkSpeed(), ETH.localIP() *)
| EvWiFiStatus | EvWiFiLocalIP           (* WiFi.status(), WiFi.localIP() *)
| EvEthMgrIsConnected                    (* EthernetManager::isConnected() *)
| EvMillis
| EvWdtReset                             (* esp_task_wdt_reset() *)
| EvWdtRegister (name : string)
| EvWriteInProgress (b : bool)           (* otaUpdateInProgress = b *)
| EvReadInProgress (b : bool)
| EvLed (what : string)
| EvDelay (ms : Z)
| EvTaskCreate (name : string) (ok : bool)
| EvRestart                              (* ESP.restart() *)
| EvInvoke (cb : Fn) (args : list Z).    (* the library calls a slot *)

(** Compile-time configuration ([#if] switches). *)
Record Build := mkBuild {
  ESP32 : bool;
  ETH_defined : bool;            (* defined(ETH) *)
  CONFIG_WIFI_ENABLED : bool;    (* CONFIG_WIFI_ENABLED == 1 *)
  ENABLE_STATUS_LED : bool
}.

(** What the hardware and the kernel answer during one operation. *)
Record Env := mkEnv {
  build : Build;
  alloc_ok : Handle -> bool;     (* xSemaphoreCreateMutex succeeds for this handle *)
  millis : Z;                    (* millis(), an unsigned long *)
  net_check : Fn -> bool;        (* result of calling a NetworkCheckCallback *)
  ETH_linkSpeed : Z;
  ETH_localIP : Z;               (* 0 is IPAddress(0,0,0,0) *)
  WiFi_connected : bool;         (* WiFi.status() == WL_CONNECTED *)
  WiFi_localIP : Z;
  EthernetManager_isConnected : bool;
  sem_take_ok : bool;            (* xSemaphoreTake(.., 100 ms) == pdTRUE *)
  xTaskCreate_ok : bool;
  wdt_register_ok : bool         (* registerCurrentTaskWithWatchdog succeeds *)
}.

(** ** The world: every static of the three classes *)

(** The transfer library's configuration as [OTAManager] sets it: each
    setter stores its argument and each [onX] replaces slot X. *)
Record ArduinoOTAClass := mkOTA {
  _hostname : string;
  _password : string;
  _port : Z;
  _start_callback : option Fn;
  _end_callback : option Fn;
  _progress_callback : option Fn;
  _error_callback : option Fn;
  _begun : bool
}.

Record ManagerStatics := mkMgr {
  initialized : bool;
  networkCheckCallback : option Fn;
  mutex : option Handle;
  lastLog : Z;             (* static in handleUpdates *)
  lastErrorLog : Z;        (* static in handleUpdates *)
  warnedOnce : bool;       (* static in isNetworkReady *)
  lastPrintedStep : Z      (* static in handleOTAProgress *)
}.

Record TaskStatics := mkTask {
  taskHandle : option Handle;
  otaUpdateInProgress : bool;
  otaStatusMutex : option Handle;
  wdtRegistered : bool;
  started : bool;          (* static in start *)
  lastStatusLog : Z;       (* static in taskFunction *)
  lastNetworkState : bool; (* static in taskFunction *)
  lastPercent : Z          (* static in onOTAProgress *)
}.

Record SensorStatics := mkSensor {
  dataMutex : option Handle;
  suspended : bool
}.

Record World := mkWorld {
  mgr : ManagerStatics;
  ota : ArduinoOTAClass;
  task : TaskStatics;
  sensor : SensorStatics;
  next_handle : Handle;    (* next handle the kernel hands out *)
  trace : list Event
}.

(** The world right after the static initialisers have run. *)
Definition boot : World :=
  mkWorld (mkMgr false None None 0 0 false (-5))
          (mkOTA "" "" 3232 None None None None false)
          (mkTask None false None false false 0 false 0)
          (mkSensor None false)
          1%nat [].

(** Field updates. *)
Definition with_mgr (f : ManagerStatics -> ManagerStatics) (w : World) : World :=
  mkWorld (f (mgr w)) (ota w) (task w) (sensor w) (next_handle w) (trace w).
Definition with_ota (f : ArduinoOTAClass -> ArduinoOTAClass) (w : World) : World :=
  mkWorld (mgr w) (f (ota w)) (task w) (sensor w) (next_handle w) (trace w).
Definition with_task (f : TaskStatics -> TaskStatics) (w : World) : World :=
  mkWorld (mgr w) (ota w) (f (task w)) (sensor w) (next_handle w) (trace w).
Definition with_sensor (f : SensorStatics -> SensorStatics) (w : World) : World :=
  mkWorld (mgr w) (ota w) (task w) (f (sensor w)) (next_handle w) (trace w).

Definition set_initialized (b : bool) (m : ManagerStatics) :=
  mkMgr b (networkCheckCallback m) (mutex m) (lastLog m) (lastErrorLog m)
        (warnedOnce m) (lastPrintedStep m).
Definition set_networkCheckCallback (c : option Fn) (m : ManagerStatics) :=
  mkMgr (initialized m) c (mutex m) (lastLog m) (lastErrorLog m)
        (warnedOnce m) (lastPrintedStep m).
Definition set_mutex (h : option Handle) (m : ManagerStatics) :=
  mkMgr (initialized m) (networkCheckCallback m) h (lastLog m) (lastErrorLog m)
        (warnedOnce m) (lastPrintedStep m).
Definition set_lastLog (t : Z) (m : ManagerStatics) :=
  mkMgr (initialized m) (networkCheckCallback m) (mutex m) t (lastErrorLog m)
        (warnedOnce m) (lastPrintedStep m).
Definition set_lastErrorLog (t : Z) (m : ManagerStatics) :=
  mkMgr (initialized m) (networkCheckCallback m) (mutex m) (lastLog m) t
        (warnedOnce m) (lastPrintedStep m).
Definition set_warnedOnce (b : bool) (m : ManagerStatics) :=
  mkMgr (initialized m) (networkCheckCallback m) (mutex m) (lastLog m)
        (lastErrorLog m) b (lastPrintedStep m).
Definition set_lastPrintedStep (p : Z) (m : ManagerStatics) :=
  mkMgr (initialized m) (networkCheckCallback m) (mutex m) (lastLog m)
        (lastErrorLog m) (warnedOnce m) p.

Definition set_hostname (h : string) (o : ArduinoOTAClass) :=
  mkOTA h (_password o) (_port o) (_start_callback o) (_end_callback o)
        (_progress_callback o) (_error_callback o) (_begun o).
Definition set_password (p : string) (o : ArduinoOTAClass) :=
  mkOTA (_hostname o) p (_port o) (_start_callback o) (_end_callback o)
        (_progress_callback o) (_error_callback o) (_begun o).
Definition set_port (p : Z) (o : ArduinoOTAClass) :=
  mkOTA (_hostname o) (_password o) p (_start_callback o) (_end_callback o)
        (_progress_callback o) (_error_callback o) (_begun o).
Definition set_begun (o : ArduinoOTAClass) :=
  mkOTA (_hostname o) (_password o) (_port o) (_start_callback o)
        (_end_callback o) (_progress_callback o) (_error_callback o) true.

(** Reading and replacing one callback slot. *)
Definition slot (k : Slot) (o : ArduinoOTAClass) : option Fn :=
  match k with
  | SlotStart => _start_callback o
  | SlotEnd => _end_callback o
  | SlotProgress => _progress_callback o
  | SlotError => _error_callback o
  end.

Definition set_slot (k : Slot) (cb : Fn) (o : ArduinoOTAClass) :=
  match k with
  | SlotStart =>
      mkOTA (_hostname o) (_password o) (_port o) (Some cb) (_end_callback o)
            (_progress_callback o) (_error_callback o) (_begun o)
  | SlotEnd =>
      mkOTA (_hostname o) (_password o) (_port o) (_start_callback o) (Some cb)
            (_progress_callback o) (_error_callback o) (_begun o)
  | SlotProgress =>
      mkOTA (_hostname o) (_password o) (_port o) (_start_callback o)
            (_end_callback o) (Some cb) (_error_callback o) (_begun o)
  | SlotError =>
      mkOTA (_hostname o) (_password o) (_port o) (_start_callback o)
            (_end_callback o) (_progress_callback o) (Some cb) (_begun o)
  end.

(** ** The monad of operations *)

Definition M (A : Type) : Type := World -> option (A * World).

Definition ret {A} (a : A) : M A := fun w => Some (a, w).
Definition bind {A B} (c : M A) (k : A -> M B) : M B :=
  fun w => match c w with
           | Some (a, w') => k a w'
           | None => None
           end.
Definition crash {A} : M A := fun _ => None.

Declare Scope m_scope.
Delimit Scope m_scope with m.
Notation "x <- c1 ;; c2" := (bind c1 (fun x => c2))
  (at level 61, c1 at next level, right associativity) : m_scope.
Notation "c1 ;; c2" := (bind c1 (fun _ => c2))
  (at level 61, right associativity) : m_scope.
Open Scope m_scope.

Definition gets {A} (f : World -> A) : M A := fun w => Some (f w, w).
Definition modify (f : World -> World) : M unit := fun w => Some (tt, f w).
Definition emit (e : Event) : M unit :=
  modify (fun w => mkWorld (mgr w) (ota w) (task w) (sensor w) (next_handle w)
                           (trace w ++ [e])).
Definition when (b : bool) (c : M unit) : M unit := if b then c else ret tt.

(** The events a run appended and the world it ended in. *)
Definition exec {A} (c : M A) (w : World) : option World :=
  match c w with Some (_, w') => Some w' | None => None end.

(** [xSemaphoreCreateMutex()]: a fresh handle, or null when the kernel is
    out of memory. *)
Definition xSemaphoreCreateMutex (env : Env) : M (option Handle) :=
  h <- gets next_handle ;;
  if alloc_ok env h then
    modify (fun w => mkWorld (mgr w) (ota w) (task w) (sensor w) (S h) (trace w)) ;;
    emit (EvCreateMutex (Some h)) ;;
    ret (Some h)
  else
    emit (EvCreateMutex None) ;; ret None.

(** [MutexGuard lock(h)] / [SemaphoreGuard guard(h)] around [body]: the
    guard is constructed on whatever the handle holds, [body] runs, and
    the guard is destroyed when the scope is left. *)
Definition with_guard {A} (h : option Handle) (body : M A) : M A :=
  emit (EvTake h) ;; r <- body ;; emit (EvGive h) ;; ret r.

(** ** [OTAManager] (src/OTAManager.cpp) *)

Module OTAManager.

Definition OTAM_LOG_TAG : string := "OTAMgr".
Definition OTA_LOG_INTERVAL_MS : Z := 60000.
Definition OTA_ERROR_LOG_INTERVAL_MS : Z := 10000.
Definition OTA_PORT : Z := 3232.

Definition OTAM_LOG (lvl : LogLevel) (msg : string) : M unit :=
  emit (EvLog lvl OTAM_LOG_TAG msg).

(** The callbacks [initialize] installs. *)
Definition default_onStart : Fn := "OTAManager::initialize::onStart".
Definition default_onEnd : Fn := "OTAManager::initialize::onEnd".
Definition default_onProgress : Fn := "OTAManager::handleOTAProgress".
Definition default_onError : Fn := "OTAManager::initialize::onError".

(** Calls into the transfer library: the call is recorded and the
    configuration it sets is stored.  Of [handle()] only the call is
    recorded: the lifecycle handlers the library may run during it are
    operations of their own ([fire] and the handlers of [OTATask]
    below). *)
Definition ArduinoOTA_setHostname (h : string) : M unit :=
  emit (EvOtaSetHostname h) ;; modify (with_ota (set_hostname h)).
Definition ArduinoOTA_setPassword (p : string) : M unit :=
  emit (EvOtaSetPassword p) ;; modify (with_ota (set_password p)).
Definition ArduinoOTA_setPort (p : Z) : M unit :=
  emit (EvOtaSetPort p) ;; modify (with_ota (set_port p)).
Definition ArduinoOTA_on (k : Slot) (cb : Fn) : M unit :=
  emit (EvOtaOn k cb) ;; modify (with_ota (set_slot k cb)).
Definition ArduinoOTA_begin : M unit :=
  emit EvOtaBegin ;; modify (with_ota set_begun).
Definition ArduinoOTA_handle : M unit := emit EvOtaHandle.

(** [!s || strlen(s) == 0] for a [const char*]. *)
Definition null_or_empty (s : option string) : bool :=
  match s with
  | None => true
  | Some t => (String.length t =? 0)%nat
  end.

Definition c_str (s : option string) : string :=
  match s with Some t => t | None => "" end.

(** The tail of [initialize] once both parameters passed validation. *)
Definition configure (hostname password : option string) (port : Z)
    (networkCheckCb : option Fn) : M unit :=
  modify (with_mgr (set_networkCheckCallback networkCheckCb)) ;;
  ArduinoOTA_setHostname (c_str hostname) ;;
  (if negb (null_or_empty password) then
     ArduinoOTA_setPassword (c_str password) ;;
     OTAM_LOG LOG_I "OTA password protection enabled"
   else
     OTAM_LOG LOG_W "OTA running without password protection") ;;
  when (negb (port =? 3232))
       (ArduinoOTA_setPort port ;; OTAM_LOG LOG_D "OTA port set to %u") ;;
  ArduinoOTA_on SlotStart default_onStart ;;
  ArduinoOTA_on SlotEnd default_onEnd ;;
  ArduinoOTA_on SlotProgress default_onProgress ;;
  ArduinoOTA_on SlotError default_onError ;;
  ArduinoOTA_begin ;;
  modify (with_mgr (set_initialized true)) ;;
  OTAM_LOG LOG_I "OTA Manager initialized successfully".

(** The part of [initialize] that runs under [MutexGuard lock(mutex)]. *)
Definition initialize_locked (hostname password : option string) (port : Z)
    (networkCheckCb : option Fn) : M unit :=
  OTAM_LOG LOG_D "Initializing OTA Manager" ;;
  if null_or_empty hostname then
    OTAM_LOG LOG_E "Hostname cannot be null or empty"
  else if port =? 0 then
    OTAM_LOG LOG_E "Port cannot be 0"
  else
    configure hostname password port networkCheckCb.

Definition initialize (env : Env) (hostname password : option string)
    (port : Z) (networkCheckCb : option Fn) : M unit :=
  m <- gets (fun w => mutex (mgr w)) ;;
  have_mutex <-
    match m with
    | Some _ => ret true
    | None =>
        h <- xSemaphoreCreateMutex env ;;
        modify (with_mgr (set_mutex h)) ;;
        match h with
        | Some _ => ret true
        | None => OTAM_LOG LOG_E "Failed to create mutex for OTA Manager" ;;
                  ret false
        end
    end ;;
  if have_mutex then
    m' <- gets (fun w => mutex (mgr w)) ;;
    with_guard m' (initialize_locked hostname password port networkCheckCb)
  else ret tt.

Definition isInitialized : M bool :=
  m <- gets (fun w => mutex (mgr w)) ;;
  with_guard m (gets (fun w => initialized (mgr w))).

(** [ETH.linkSpeed() > 0 && ETH.localIP() != IPAddress(0,0,0,0)], with
    the short circuit of [&&]. *)
Definition eth_connected (env : Env) : M bool :=
  emit EvEthLinkSpeed ;;
  if ETH_linkSpeed env >? 0 then
    emit EvEthLocalIP ;; ret (negb (ETH_localIP env =? 0))
  else ret false.

(** [WiFi.status() == WL_CONNECTED && WiFi.localIP() != IPAddress(0,0,0,0)]. *)
Definition wifi_connected (env : Env) : M bool :=
  emit EvWiFiStatus ;;
  if WiFi_connected env then
    emit EvWiFiLocalIP ;; ret (negb (WiFi_localIP env =? 0))
  else ret false.

(** The end of [isNetworkReady]: nothing is connected. *)
Definition no_connection : M bool :=
  warned <- gets (fun w => warnedOnce (mgr w)) ;;
  when (negb warned)
       (OTAM_LOG LOG_W "No network check callback provided and no network detected" ;;
        modify (with_mgr (set_warnedOnce true))) ;;
  ret false.

(** The WiFi part of the default probe and what follows it. *)
Definition probe_wifi (env : Env) : M bool :=
  if ESP32 (build env) && CONFIG_WIFI_ENABLED (build env) then
    up <- wifi_connected env ;;
    if up then OTAM_LOG LOG_NET "WiFi connected: %s, RSSI: %d dBm" ;; ret true
    else no_connection
  else no_connection.

(** The default probe: Ethernet first, then WiFi. *)
Definition default_probe (env : Env) : M bool :=
  if ESP32 (build env) && ETH_defined (build env) then
    up <- eth_connected env ;;
    if up then OTAM_LOG LOG_NET "Ethernet connected: %s, speed: %d Mbps" ;; ret true
    else probe_wifi env
  else probe_wifi env.

Definition isNetworkReady (env : Env) : M bool :=
  m <- gets (fun w => mutex (mgr w)) ;;
  with_guard m
    (cb <- gets (fun w => networkCheckCallback (mgr w)) ;;
     match cb with
     | Some f =>
         let ready := net_check env f in
         emit (EvNetCheck f ready) ;;
         OTAM_LOG LOG_NET "Custom network check returned: %s" ;;
         ret ready
     | None => default_probe env
     end).

(** The status line of [handleUpdates], printed every
    [OTA_LOG_INTERVAL_MS]; the address is looked up for the message. *)
Definition log_waiting (env : Env) : M unit :=
  emit EvMillis ;;
  let now := to_uint (millis env) in
  last <- gets (fun w => lastLog (mgr w)) ;;
  when (to_uint (now - last) >=? OTA_LOG_INTERVAL_MS)
       (when (ESP32 (build env) && ETH_defined (build env))
             (up <- eth_connected env ;; when up (emit EvEthLocalIP)) ;;
        when (ESP32 (build env) && CONFIG_WIFI_ENABLED (build env))
             (up <- wifi_connected env ;; when up (emit EvWiFiLocalIP)) ;;
        OTAM_LOG LOG_D "Waiting for OTA updates on %s:%u..." ;;
        modify (with_mgr (set_lastLog now))).

(** The error line of [handleUpdates], printed every
    [OTA_ERROR_LOG_INTERVAL_MS]. *)
Definition log_not_connected (env : Env) : M unit :=
  emit EvMillis ;;
  let now := to_uint (millis env) in
  last <- gets (fun w => lastErrorLog (mgr w)) ;;
  when (to_uint (now - last) >=? OTA_ERROR_LOG_INTERVAL_MS)
       (OTAM_LOG LOG_E "Network not connected, skipping OTA check" ;;
        modify (with_mgr (set_lastErrorLog now))).

(** The branch of [handleUpdates] taken when the network is ready. *)
Definition service_locked (env : Env) : M unit :=
  m <- gets (fun w => mutex (mgr w)) ;;
  with_guard m
    (init' <- gets (fun w => initialized (mgr w)) ;;
     when init' ArduinoOTA_handle ;;
     log_waiting env).

Definition handleUpdates (env : Env) : M unit :=
  init <- gets (fun w => initialized (mgr w)) ;;
  if negb init then ret tt
  else
    ready <- isNetworkReady env ;;
    if ready then service_locked env else log_not_connected env.

(** The four setters share one body; [k] is the slot each one replaces. *)
Definition setCallback (k : Slot) (what : string) (cb : option Fn) : M unit :=
  m <- gets (fun w => mutex (mgr w)) ;;
  with_guard m
    (init <- gets (fun w => initialized (mgr w)) ;;
     if negb init then
       OTAM_LOG LOG_W "Cannot set callback - OTA not initialized"
     else
       match cb with
       | Some f => ArduinoOTA_on k f ;; OTAM_LOG LOG_D what
       | None => ret tt
       end).

Definition setStartCallback (cb : option Fn) : M unit :=
  setCallback SlotStart "Custom OTA start callback set" cb.
Definition setEndCallback (cb : option Fn) : M unit :=
  setCallback SlotEnd "Custom OTA end callback set" cb.
Definition setProgressCallback (cb : option Fn) : M unit :=
  setCallback SlotProgress "Custom OTA progress callback set" cb.
Definition setErrorCallback (cb : option Fn) : M unit :=
  setCallback SlotError "Custom OTA error callback set" cb.

Definition handleOTAError (error : ota_error_t) : M unit :=
  match error with
  | OTA_AUTH_ERROR => OTAM_LOG LOG_E "Error[%u]: Auth Failed"
  | OTA_BEGIN_ERROR => OTAM_LOG LOG_E "Error[%u]: Begin Failed"
  | OTA_CONNECT_ERROR => OTAM_LOG LOG_E "Error[%u]: Connect Failed"
  | OTA_RECEIVE_ERROR => OTAM_LOG LOG_E "Error[%u]: Receive Failed"
  | OTA_END_ERROR => OTAM_LOG LOG_E "Error[%u]: End Failed"
  | OTA_OTHER _ => OTAM_LOG LOG_E "Error[%u]: Unknown Error"
  end.

(** [(progress * 100) / total] in [unsigned int], converted to [int];
    no value when [total] is zero. *)
Definition percent_of (progress total : Z) : option Z :=
  if total =? 0 then None
  else Some (to_int (to_uint (progress * 100) / total)).

Definition handleOTAProgress (progress total : Z) : M unit :=
  match percent_of progress total with
  | None => crash
  | Some currentProgress =>
      last <- gets (fun w => lastPrintedStep (mgr w)) ;;
      when (currentProgress >=? int_add last 5)
           (OTAM_LOG LOG_I "Progress: %u%%" ;;
            modify (with_mgr (set_lastPrintedStep
              (int_sub currentProgress (Z.rem currentProgress 5))))) ;;
      OTAM_LOG LOG_PROG "Bytes: %u/%u, Progress: %u%%, Speed: ~%.1f KB/s"
  end.

(** The default start and end lambdas of [initialize]. *)
Definition onStart_lambda : M unit := OTAM_LOG LOG_I "Start updating %s".
Definition onEnd_lambda : M unit :=
  OTAM_LOG LOG_I "Update complete. Rebooting..." ;;
  emit (EvDelay 1000) ;; emit EvRestart.

End OTAManager.

(** ** The transfer library's dispatch of a lifecycle event

    ArduinoOTA is an external library; the repository only fills its four
    slots.  Following the spec's description of the interface ("a slot
    holding no value is a no-op when its event fires", each slot's handler
    is "invoked synchronously"), an occurrence of an event calls the
    function stored in the matching slot once, and does nothing when the
    slot is empty. *)

Inductive OtaEvent :=
| OnStart | OnEnd | OnProgress (progress total : Z) | OnError (e : ota_error_t).

Definition slot_of (e : OtaEvent) : Slot :=
  match e with
  | OnStart => SlotStart
  | OnEnd => SlotEnd
  | OnProgress _ _ => SlotProgress
  | OnError _ => SlotError
  end.

Definition error_code (e : ota_error_t) : Z :=
  match e with
  | OTA_AUTH_ERROR => 0 | OTA_BEGIN_ERROR => 1 | OTA_CONNECT_ERROR => 2
  | OTA_RECEIVE_ERROR => 3 | OTA_END_ERROR => 4 | OTA_OTHER c => c
  end.

Definition args_of (e : OtaEvent) : list Z :=
  match e with
  | OnStart | OnEnd => []
  | OnProgress p t => [p; t]
  | OnError err => [error_code err]
  end.

Definition fire (e : OtaEvent) : M unit :=
  cb <- gets (fun w => slot (slot_of e) (ota w)) ;;
  match cb with
  | Some f => emit (EvInvoke f (args_of e))
  | None => ret tt
  end.

(** ** [SensorTask::suspend] and [resume] (tasks/SensorTask.cpp) *)

Module SensorTask.

Definition LOG_TAG_SENSOR : string := "SENS".

Definition set_suspended (b : bool) (s : SensorStatics) :=
  mkSensor (dataMutex s) b.

(** [if (xSemaphoreTake(dataMutex, 100 ms) == pdTRUE) { suspended = b;
    xSemaphoreGive(dataMutex); }] *)
Definition write_suspended (env : Env) (b : bool) : M unit :=
  when (sem_take_ok env)
       (m <- gets (fun w => dataMutex (sensor w)) ;;
        with_guard m (modify (with_sensor (set_suspended b)))).

Definition suspend (env : Env) : M unit :=
  write_suspended env true ;;
  emit (EvLog LOG_I LOG_TAG_SENSOR "Sensor readings suspended").

Definition resume (env : Env) : M unit :=
  write_suspended env false ;;
  emit (EvLog LOG_I LOG_TAG_SENSOR "Sensor readings resumed").

End SensorTask.

(** ** [OTATask] (tasks/OTATask.cpp) *)

Module OTATask.

Definition LOG_TAG_OTA : string := "OTA".
Definition DEVICE_HOSTNAME : string := "esp32-ethernet-device".
Definition OTA_PASSWORD : string := "update-password".
Definition OTA_PORT : Z := 3232.
Definition OTA_TASK_INTERVAL_MS : Z := 250.

Definition LOG (lvl : LogLevel) (msg : string) : M unit :=
  emit (EvLog lvl LOG_TAG_OTA msg).

(** The functions [init] hands to [OTAManager]. *)
Definition fn_isNetworkConnected : Fn := "OTATask::isNetworkConnected".
Definition fn_onOTAStart : Fn := "OTATask::onOTAStart".
Definition fn_onOTAEnd : Fn := "OTATask::onOTAEnd".
Definition fn_onOTAProgress : Fn := "OTATask::onOTAProgress".
Definition fn_onOTAError : Fn := "OTATask::onOTAError".

Definition set_taskHandle (h : option Handle) (t : TaskStatics) :=
  mkTask h (otaUpdateInProgress t) (otaStatusMutex t) (wdtRegistered t)
         (started t) (lastStatusLog t) (lastNetworkState t) (lastPercent t).
Definition set_otaUpdateInProgress (b : bool) (t : TaskStatics) :=
  mkTask (taskHandle t) b (otaStatusMutex t) (wdtRegistered t)
         (started t) (lastStatusLog t) (lastNetworkState t) (lastPercent t).
Definition set_otaStatusMutex (h : option Handle) (t : TaskStatics) :=
  mkTask (taskHandle t) (otaUpdateInProgress t) h (wdtRegistered t)
         (started t) (lastStatusLog t) (lastNetworkState t) (lastPercent t).
Definition set_wdtRegistered (b : bool) (t : TaskStatics) :=
  mkTask (taskHandle t) (otaUpdateInProgress t) (otaStatusMutex t) b
         (started t) (lastStatusLog t) (lastNetworkState t) (lastPercent t).
Definition set_started (b : bool) (t : TaskStatics) :=
  mkTask (taskHandle t) (otaUpdateInProgress t) (otaStatusMutex t)
         (wdtRegistered t) b (lastStatusLog t) (lastNetworkState t)
         (lastPercent t).
Definition set_lastStatusLog (z : Z) (t : TaskStatics) :=
  mkTask (taskHandle t) (otaUpdateInProgress t) (otaStatusMutex t)
         (wdtRegistered t) (started t) z (lastNetworkState t) (lastPercent t).
Definition set_lastNetworkState (b : bool) (t : TaskStatics) :=
  mkTask (taskHandle t) (otaUpdateInProgress t) (otaStatusMutex t)
         (wdtRegistered t) (started t) (lastStatusLog t) b (lastPercent t).
Definition set_lastPercent (z : Z) (t : TaskStatics) :=
  mkTask (taskHandle t) (otaUpdateInProgress t) (otaStatusMutex t)
         (wdtRegistered t) (started t) (lastStatusLog t) (lastNetworkState t) z.

(** [{ SemaphoreGuard guard(otaStatusMutex); otaUpdateInProgress = b; }] *)
Definition write_inProgress (b : bool) : M unit :=
  m <- gets (fun w => otaStatusMutex (task w)) ;;
  with_guard m
    (emit (EvWriteInProgress b) ;;
     modify (with_task (set_otaUpdateInProgress b))).

(** [{ SemaphoreGuard guard(otaStatusMutex); updateInProgress =
    otaUpdateInProgress; }] *)
Definition read_inProgress : M bool :=
  m <- gets (fun w => otaStatusMutex (task w)) ;;
  with_guard m
    (b <- gets (fun w => otaUpdateInProgress (task w)) ;;
     emit (EvReadInProgress b) ;;
     ret b).

Definition isNetworkConnected (env : Env) : M bool :=
  emit EvEthMgrIsConnected ;; ret (EthernetManager_isConnected env).

(** The rest of [init] once the status mutex exists. *)
Definition init_manager (env : Env) : M bool :=
  LOG LOG_I "OTA Configuration:" ;;
  LOG LOG_I "  Hostname: %s" ;;
  LOG LOG_I "  Port: %d" ;;
  LOG LOG_I "  Password: %s" ;;
  OTAManager.initialize env (Some DEVICE_HOSTNAME) (Some OTA_PASSWORD) OTA_PORT
                        (Some fn_isNetworkConnected) ;;
  ok <- OTAManager.isInitialized ;;
  if negb ok then
    LOG LOG_E "OTA Manager failed to initialize" ;; ret false
  else
    OTAManager.setStartCallback (Some fn_onOTAStart) ;;
    OTAManager.setEndCallback (Some fn_onOTAEnd) ;;
    OTAManager.setProgressCallback (Some fn_onOTAProgress) ;;
    OTAManager.setErrorCallback (Some fn_onOTAError) ;;
    LOG LOG_I "OTA task initialized successfully" ;;
    ret true.

Definition init (env : Env) : M bool :=
  LOG LOG_I "Initializing OTA task" ;;
  h <- xSemaphoreCreateMutex env ;;
  modify (with_task (set_otaStatusMutex h)) ;;
  match h with
  | None => LOG LOG_E "Failed to create OTA status mutex" ;; ret false
  | Some _ => init_manager env
  end.

Definition start (env : Env) : M bool :=
  st <- gets (fun w => started (task w)) ;;
  if st then LOG LOG_W "OTA task already started" ;; ret true
  else
    LOG LOG_I "Starting OTA task" ;;
    emit (EvTaskCreate "OTATask" (xTaskCreate_ok env)) ;;
    if negb (xTaskCreate_ok env) then
      LOG LOG_E "Failed to create OTA task" ;; ret false
    else
      h <- gets next_handle ;;
      modify (fun w => mkWorld (mgr w) (ota w) (task w) (sensor w) (S h) (trace w)) ;;
      modify (with_task (set_taskHandle (Some h))) ;;
      modify (with_task (set_started true)) ;;
      LOG LOG_I "OTA task started successfully" ;;
      ret true.

(** [taskFunction] up to its loop. *)
Definition taskFunction_enter (env : Env) : M unit :=
  LOG LOG_D "OTA task running" ;;
  emit (EvDelay 200) ;;
  emit (EvWdtRegister "OTATask") ;;
  modify (with_task (set_wdtRegistered (wdt_register_ok env))) ;;
  _ <- isNetworkConnected env ;;
  LOG LOG_I "OTA task started - Network connected: %s".

(** One pass through the [for (;;)] loop of [taskFunction]. *)
Definition taskFunction_loop (env : Env) : M unit :=
  emit EvWdtReset ;;
  OTAManager.handleUpdates env ;;
  currentNetworkState <- isNetworkConnected env ;;
  last <- gets (fun w => lastNetworkState (task w)) ;;
  when (negb (Bool.eqb currentNetworkState last))
       (LOG LOG_I "Network state changed: %s -> %s" ;;
        modify (with_task (set_lastNetworkState currentNetworkState)) ;;
        when currentNetworkState
             (emit EvEthLocalIP ;; LOG LOG_I "OTA ready on IP: %s:%d")) ;;
  emit EvMillis ;;
  lastStatus <- gets (fun w => lastStatusLog (task w)) ;;
  when (to_uint (to_uint (millis env) - lastStatus) >? 30000)
       (emit EvMillis ;;
        modify (with_task (set_lastStatusLog (to_uint (millis env)))) ;;
        when currentNetworkState
             (emit EvEthLocalIP ;; LOG LOG_I "OTA service active - IP: %s:%d")) ;;
  updateInProgress <- read_inProgress ;;
  when (ENABLE_STATUS_LED (build env) && negb updateInProgress)
       (if currentNetworkState then emit (EvLed "setBlink(500)")
        else emit (EvLed "setPattern(3, 100, 2000)")) ;;
  emit (EvDelay OTA_TASK_INTERVAL_MS) ;;
  emit EvWdtReset.

Definition onOTAStart (env : Env) : M unit :=
  LOG LOG_I "OTA update starting" ;;
  write_inProgress true ;;
  when (ENABLE_STATUS_LED (build env)) (emit (EvLed "setBlink(100)")) ;;
  SensorTask.suspend env.

Definition onOTAEnd (env : Env) : M unit :=
  LOG LOG_I "OTA update complete, rebooting in 1 second" ;;
  write_inProgress false ;;
  when (ENABLE_STATUS_LED (build env)) (emit (EvLed "setOn()")) ;;
  emit (EvDelay 1000) ;;
  emit EvRestart.

Definition onOTAProgress (progress total : Z) : M unit :=
  match OTAManager.percent_of progress total with
  | None => crash
  | Some percent =>
      last <- gets (fun w => lastPercent (task w)) ;;
      when ((percent >=? int_add last 10) || (percent =? 100))
           (LOG LOG_I "OTA update progress: %u%%" ;;
            modify (with_task (set_lastPercent
              (int_sub percent (Z.rem percent 10))))) ;;
      emit EvWdtReset
  end.

Definition errorMsg (error : ota_error_t) : string :=
  match error with
  | OTA_AUTH_ERROR => "Authentication Failed"
  | OTA_BEGIN_ERROR => "Begin Failed"
  | OTA_CONNECT_ERROR => "Connection Failed"
  | OTA_RECEIVE_ERROR => "Receive Failed"
  | OTA_END_ERROR => "End Failed"
  | OTA_OTHER _ => "Unknown Error"
  end.

Definition onOTAError (env : Env) (error : ota_error_t) : M unit :=
  LOG LOG_E ("OTA Error[%u]: " ++ errorMsg error) ;;
  write_inProgress false ;;
  SensorTask.resume env ;;
  when (ENABLE_STATUS_LED (build env)) (emit (EvLed "setPattern(5, 100, 1500)")).

End OTATask.

(** ** Everything a task can run, as one step function *)

(** The functions of the three classes and the library's dispatch.  An
    application task runs the public ones; the transfer library runs the
    handlers stored in its slots. *)
Inductive Op :=
| Initialize (hostname password : option string) (port : Z) (cb : option Fn)
| IsInitialized
| HandleUpdates
| SetStartCallback (cb : option Fn)
| SetEndCallback (cb : option Fn)
| SetProgressCallback (cb : option Fn)
| SetErrorCallback (cb : option Fn)
| HandleOTAError (e : ota_error_t)
| HandleOTAProgress (progress total : Z)
| DefaultOnStart
| DefaultOnEnd
| Fire (e : OtaEvent)
| SensorSuspend
| SensorResume
| TaskInit
| TaskStart
| TaskEnter
| TaskLoop
| TaskIsNetworkConnected
| OnOTAStart
| OnOTAEnd
| OnOTAProgress (progress total : Z)
| OnOTAError (e : ota_error_t).

Definition discard {A} (c : M A) : M unit := _ <- c ;; ret tt.

Definition step (env : Env) (op : Op) : M unit :=
  match op with
  | Initialize h p port cb => OTAManager.initialize env h p port cb
  | IsInitialized => discard OTAManager.isInitialized
  | HandleUpdates => OTAManager.handleUpdates env
  | SetStartCallback cb => OTAManager.setStartCallback cb
  | SetEndCallback cb => OTAManager.setEndCallback cb
  | SetProgressCallback cb => OTAManager.setProgressCallback cb
  | SetErrorCallback cb => OTAManager.setErrorCallback cb
  | HandleOTAError e => OTAManager.handleOTAError e
  | HandleOTAProgress p t => OTAManager.handleOTAProgress p t
  | DefaultOnStart => OTAManager.onStart_lambda
  | DefaultOnEnd => OTAManager.onEnd_lambda
  | Fire e => fire e
  | SensorSuspend => SensorTask.suspend env
  | SensorResume => SensorTask.resume env
  | TaskInit => discard (OTATask.init env)
  | TaskStart => discard (OTATask.start env)
  | TaskEnter => OTATask.taskFunction_enter env
  | TaskLoop => OTATask.taskFunction_loop env
  | TaskIsNetworkConnected => discard (OTATask.isNetworkConnected env)
  | OnOTAStart => OTATask.onOTAStart env
  | OnOTAEnd => OTATask.onOTAEnd env
  | OnOTAProgress p t => OTATask.onOTAProgress p t
  | OnOTAError e => OTATask.onOTAError env e
  end.

(** The setter of [OTAManager] that replaces slot [k]. *)
Definition setter (k : Slot) : option Fn -> M unit :=
  match k with
  | SlotStart => OTAManager.setStartCallback
  | SlotEnd => OTAManager.setEndCallback
  | SlotProgress => OTAManager.setProgressCallback
  | SlotError => OTAManager.setErrorCallback
  end.

(** Worlds the program can be in: [boot], then any sequence of steps. *)
Inductive reachable : World -> Prop :=
| reach_boot : reachable boot
| reach_step w env op w' :
    reachable w -> exec (step env op) w = Some w' -> reachable w'.

(** The events appended between two worlds of one run. *)
Definition new_events (w w' : World) : list Event :=
  skipn (List.length (trace w)) (trace w').

(** ** Predicates on events and traces *)


Definition is_probe (e : Event) : bool :=
  match e with
  | EvEthLinkSpeed | EvEthLocalIP | EvWiFiStatus | EvWiFiLocalIP => true
  | _ => false
  end.

Definition is_wifi_probe (e : Event) : bool :=
  match e with EvWiFiStatus | EvWiFiLocalIP => true | _ => false end.

Definition is_net_check (e : Event) : bool :=
  match e with EvNetCheck _ _ => true | _ => false end.

Definition is_ota_call (e : Event) : bool :=
  match e with
  | EvOtaSetHostname _ | EvOtaSetPassword _ | EvOtaSetPort _ | EvOtaOn _ _
  | EvOtaBegin | EvOtaHandle => true
  | _ => false
  end.

Definition is_log (e : Event) : bool :=
  match e with EvLog _ _ _ => true | _ => false end.

Definition is_wdt_reset (e : Event) : bool :=
  match e with EvWdtReset => true | _ => false end.

Definition is_invoke_of (f : Fn) (e : Event) : bool :=
  match e with EvInvoke g _ => String.eqb f g | _ => false end.

Definition handle_eqb (a b : option Handle) : bool :=
  match a, b with
  | Some x, Some y => Nat.eqb x y
  | None, None => true
  | _, _ => false
  end.


(** The default probe as a pure function of the environment: Ethernet
    link with an address, or else WiFi association with an address. *)
Definition eth_ready (env : Env) : bool :=
  ESP32 (build env) && ETH_defined (build env) &&
  (ETH_linkSpeed env >? 0) && negb (ETH_localIP env =? 0).

Definition wifi_ready (env : Env) : bool :=
  ESP32 (build env) && CONFIG_WIFI_ENABLED (build env) &&
  WiFi_connected env && negb (WiFi_localIP env =? 0).

(** Whether [handleUpdates] prints its error line at time [millis env]. *)
Definition error_log_due (env : Env) (w : World) : bool :=
  to_uint (to_uint (millis env) - lastErrorLog (mgr w))
  >=? OTAManager.OTA_ERROR_LOG_INTERVAL_MS.

(** * Vocabulary of the properties *)

Open Scope list_scope.
Open Scope Z_scope.

(** A computation respects a relation when every run of it relates the
    world it started in to the world it ended in. *)
Definition respects (R : World -> World -> Prop) {A} (c : M A) : Prop :=
  forall w a w', c w = Some (a, w') -> R w w'.






(** The configurations [initialize] refuses: a null or empty hostname,
    or port 0. *)
Definition rejected (hostname : option string) (port : Z) : Prop :=
  hostname = None \/ hostname = Some ""%string \/ port = 0.

(** The line a setter logs when [initialized] is false. *)
Definition not_initialized_warning : Event :=
  EvLog LOG_W "OTAMgr" "Cannot set callback - OTA not initialized".

(** A concrete environment and a concrete initialised world. *)
Definition sample_env : Env :=
  mkEnv (mkBuild true true true true) (fun _ => true) 12000 (fun _ => true)
        100 3232235777 true 0 true true true true.

(** The world a run ends in (the starting world if it has no result). *)
Definition after {A} (c : M A) (w : World) : World :=
  match c w with Some (_, w') => w' | None => w end.

(** [boot] after [initialize("dev1", nullptr, 3232, nullptr)]. *)
Definition configured : World :=
  after (OTAManager.initialize sample_env (Some "dev1") None 3232 None) boot.


(** The configurations [initialize] accepts. *)
Definition accepted (hostname : option string) (port : Z) : Prop :=
  OTAManager.null_or_empty hostname = false /\ port <> 0.

(** The mutex exists already, or the kernel can create it. *)
Definition can_lock (env : Env) (w : World) : Prop :=
  mutex (mgr w) <> None \/ alloc_ok env (next_handle w) = true.

(** The configuration [initialize] leaves behind, given the one it found:
    the password is replaced only by a non-empty one and the port only by
    one that is not 3232. *)
Definition password_after (password : option string) (before : string) : string :=
  if OTAManager.null_or_empty password then before else OTAManager.c_str password.

(** The port of the transfer library after [initialize], given the one
    it had before. *)
Definition port_after (port before : Z) : Z :=
  if port =? 3232 then before else port.

(** What C5 asks of the world after the second call. *)
Definition configured_with (hostname password : option string) (port : Z)
    (cb : option Fn) (w : World) : Prop :=
  initialized (mgr w) = true /\
  _hostname (ota w) = OTAManager.c_str hostname /\
  _password (ota w) = OTAManager.c_str password /\
  _port (ota w) = port /\
  networkCheckCallback (mgr w) = cb.

(** What the readiness check leaves alone: the gate, the lock, the
    throttle of the error line; and it makes no call into the transfer
    library. *)
Definition gate_kept (w w' : World) : Prop :=
  initialized (mgr w') = initialized (mgr w) /\
  mutex (mgr w') = mutex (mgr w) /\
  lastErrorLog (mgr w') = lastErrorLog (mgr w) /\
  exists evs, trace w' = trace w ++ evs /\
              Forall (fun e => is_ota_call e = false) evs.

(** The lines the two branches of [handleUpdates] and the two progress
    handlers log. *)
Definition not_connected_error : Event :=
  EvLog LOG_E "OTAMgr" "Network not connected, skipping OTA check".

Definition task_progress_log : Event :=
  EvLog LOG_I "OTA" "OTA update progress: %u%%".
Definition default_progress_log : Event :=
  EvLog LOG_I "OTAMgr" "Progress: %u%%".
Definition default_progress_detail : Event :=
  EvLog LOG_PROG "OTAMgr" "Bytes: %u/%u, Progress: %u%%, Speed: ~%.1f KB/s".

(** The test [percent >= lastPercent + 10 || percent == 100]. *)
Definition decile_due (pct last : Z) : bool :=
  (pct >=? int_add last 10) || (pct =? 100).

(** The test [currentProgress >= lastPrintedStep + 5]. *)
Definition step_due (pct last : Z) : bool := pct >=? int_add last 5.

(** The operations that run [OTAManager::initialize]. *)
Definition calls_initialize (op : Op) : bool :=
  match op with
  | Initialize _ _ _ _ | TaskInit => true
  | _ => false
  end.

(** The handle and the flag it protects are the ones found. *)
Definition lock_kept (w w' : World) : Prop :=
  mutex (mgr w') = mutex (mgr w) /\
  initialized (mgr w') = initialized (mgr w).

(** [initialized] is only ever true with a mutex in place. *)
Definition lock_ready (w : World) : Prop :=
  initialized (mgr w) = true -> mutex (mgr w) <> None.

(** The handle is only ever set from null, and [lock_ready] is kept. *)
Definition lock_rel (w w' : World) : Prop :=
  (mutex (mgr w') <> mutex (mgr w) -> mutex (mgr w) = None) /\
  (lock_ready w -> lock_ready w').

(** A world initialised with a network-check predicate. *)
Definition checked : World :=
  after (OTAManager.initialize sample_env (Some "dev1") None 3232
                               (Some "check")) boot.

(** * Further properties: vocabulary *)

(** [initialized] true implies that the lock exists, that
    [ArduinoOTA.begin()] has run and that each of the four slots of the
    transfer library holds a callback. *)
Definition fully_configured (w : World) : Prop :=
  initialized (mgr w) = true ->
  mutex (mgr w) <> None /\
  _begun (ota w) = true /\
  forall k, slot k (ota w) <> None.

Definition keeps_configured (w w' : World) : Prop :=
  fully_configured w -> fully_configured w'.

(** [initialized], once true, is true afterwards. *)
Definition stays_initialized (w w' : World) : Prop :=
  initialized (mgr w) = true -> initialized (mgr w') = true.

(** The one-time warning of [isNetworkReady], and how often the trace of
    a world contains it. *)
Definition no_network_warning : Event :=
  EvLog LOG_W "OTAMgr"
        "No network check callback provided and no network detected".

Definition is_no_network_warning (e : Event) : bool :=
  match e with
  | EvLog LOG_W tag msg =>
      String.eqb tag "OTAMgr" &&
      String.eqb msg "No network check callback provided and no network detected"
  | _ => false
  end.

Definition warnings (w : World) : nat :=
  List.length (filter is_no_network_warning (trace w)).

Definition warned_inv (w : World) : Prop :=
  (warnedOnce (mgr w) = false -> warnings w = 0%nat) /\ (warnings w <= 1)%nat.

Definition keeps_warned (w w' : World) : Prop := warned_inv w -> warned_inv w'.

(** The events of a failed mutex creation in [initialize]. *)
Definition mutex_creation_failed : list Event :=
  [EvCreateMutex None;
   EvLog LOG_E "OTAMgr" "Failed to create mutex for OTA Manager"].

(** An environment with no link, no memory for a mutex, and a clock at
    [t]. *)
Definition offline_env (t : Z) : Env :=
  mkEnv (mkBuild true true true true) (fun _ => false) t (fun _ => false)
        0 0 false 0 false false false false.

(** The world after [handleUpdates] has looked for a network in vain. *)
Definition searched : World :=
  after (OTAManager.handleUpdates (offline_env 12000)) configured.

(** The transfer library reports progress by calling the progress
    callback once per report, in order. *)
Fixpoint reports (handler : Z -> Z -> M unit) (rs : list (Z * Z)) : M unit :=
  match rs with
  | [] => ret tt
  | (progress, total) :: rest => handler progress total ;; reports handler rest
  end.

(** A report of a transfer that has a size and has not passed it. *)
Definition valid_report (r : Z * Z) : Prop :=
  0 <= fst r <= snd r /\ 0 < snd r < 2 ^ 32.

(** A report at which the computed percentage is 100. *)
Definition is_full_report (r : Z * Z) : bool :=
  match OTAManager.percent_of (fst r) (snd r) with
  | Some pct => pct =? 100
  | None => false
  end.

Definition is_info_line (e : Event) : bool :=
  match e with EvLog LOG_I _ _ => true | _ => false end.

Definition count (p : Event -> bool) (evs : list Event) : Z :=
  Z.of_nat (List.length (filter p evs)).

(** How many of the reports are at 100 percent. *)
Definition fulls (rs : list (Z * Z)) : Z :=
  Z.of_nat (List.length (filter is_full_report rs)).

(** A successful [xTaskCreate], and how many the trace of a world holds. *)
Definition is_task_created (e : Event) : bool :=
  match e with EvTaskCreate _ true => true | _ => false end.

Definition tasks_created (w : World) : nat :=
  List.length (filter is_task_created (trace w)).

Definition started_inv (w : World) : Prop :=
  (started (task w) = false -> tasks_created w = 0%nat) /\
  (tasks_created w <= 1)%nat.

Definition keeps_started (w w' : World) : Prop :=
  started_inv w -> started_inv w'.




(** * [StatusLed] (utils/StatusLed.cpp)

    The embedding is of the build with [ENABLE_STATUS_LED] defined, as
    [ProjectConfig.h] defines it (without it every function of the class
    has an empty body).  [millis()] is the argument [now] of the functions
    that read the clock; the calls of [pinMode] and [digitalWrite] are
    appended to [gpio]. *)

Module StatusLed.

Inductive Gpio :=
| PinModeOutput (pin : Z)
| DigitalWrite (pin : Z) (level : bool).

Record Led := mkLed {
  ledPin : Z;               (* uint8_t *)
  ledState : bool;
  lastChangeTime : Z;       (* uint32_t *)
  currentBlinkRate : Z;     (* uint16_t *)
  isBlinking : bool;
  isPattern : bool;
  patternBlinks : Z;        (* uint8_t *)
  patternBlinkRate : Z;     (* uint16_t *)
  patternPauseTime : Z;     (* uint16_t *)
  currentPatternStep : Z;   (* uint8_t *)
  gpio : list Gpio
}.

Definition to_u8 (z : Z) : Z := z mod 256.
Definition to_u16 (z : Z) : Z := z mod 65536.

(** The statics as their initialisers leave them. *)
Definition power_on : Led := mkLed 0 false 0 500 false false 0 0 0 0 [].

Definition setOn (s : Led) : Led :=
  mkLed (ledPin s) true (lastChangeTime s) (currentBlinkRate s) false false
        (patternBlinks s) (patternBlinkRate s) (patternPauseTime s)
        (currentPatternStep s) (gpio s ++ [DigitalWrite (ledPin s) true]).

Definition setOff (s : Led) : Led :=
  mkLed (ledPin s) false (lastChangeTime s) (currentBlinkRate s) false false
        (patternBlinks s) (patternBlinkRate s) (patternPauseTime s)
        (currentPatternStep s) (gpio s ++ [DigitalWrite (ledPin s) false]).

Definition init (pin : Z) (s : Led) : Led :=
  setOff
    (mkLed (to_u8 pin) (ledState s) (lastChangeTime s) (currentBlinkRate s)
           (isBlinking s) (isPattern s) (patternBlinks s) (patternBlinkRate s)
           (patternPauseTime s) (currentPatternStep s)
           (gpio s ++ [PinModeOutput (to_u8 pin)])).

Definition setBlink (blinkRate now : Z) (s : Led) : Led :=
  mkLed (ledPin s) (ledState s) (to_uint now) (to_u16 blinkRate) true false
        (patternBlinks s) (patternBlinkRate s) (patternPauseTime s)
        (currentPatternStep s) (gpio s).

Definition setPattern (numBlinks blinkRate pauseTime now : Z) (s : Led) : Led :=
  mkLed (ledPin s) true (to_uint now) (currentBlinkRate s) false true
        (to_u8 numBlinks) (to_u16 blinkRate) (to_u16 pauseTime) 0
        (gpio s ++ [DigitalWrite (ledPin s) true]).

(** [ledState = !ledState; digitalWrite(ledPin, ledState ? HIGH : LOW);
    lastChangeTime = currentTime;] with the pattern step set to [step]. *)
Definition toggle (currentTime step : Z) (s : Led) : Led :=
  mkLed (ledPin s) (negb (ledState s)) currentTime (currentBlinkRate s)
        (isBlinking s) (isPattern s) (patternBlinks s) (patternBlinkRate s)
        (patternPauseTime s) step
        (gpio s ++ [DigitalWrite (ledPin s) (negb (ledState s))]).

(** The restart of the pattern after its pause. *)
Definition restart (currentTime : Z) (s : Led) : Led :=
  mkLed (ledPin s) true currentTime (currentBlinkRate s)
        (isBlinking s) (isPattern s) (patternBlinks s) (patternBlinkRate s)
        (patternPauseTime s) 0
        (gpio s ++ [DigitalWrite (ledPin s) true]).

Definition update (now : Z) (s : Led) : Led :=
  let currentTime := to_uint now in
  let elapsed := to_uint (currentTime - lastChangeTime s) in
  if isBlinking s then
    if elapsed >=? currentBlinkRate s then
      toggle currentTime (currentPatternStep s) s
    else s
  else if isPattern s then
    let blinking := currentPatternStep s <? patternBlinks s * 2 in
    if elapsed >=? (if blinking then patternBlinkRate s else patternPauseTime s)
    then
      if blinking then toggle currentTime (to_u8 (currentPatternStep s + 1)) s
      else restart currentTime s
    else s
  else s.

(** The calls a program can make, and a sequence of them. *)
Inductive Call :=
| CInit (pin : Z)
| CSetOn
| CSetOff
| CSetBlink (blinkRate now : Z)
| CSetPattern (numBlinks blinkRate pauseTime now : Z)
| CUpdate (now : Z).

Definition call (c : Call) (s : Led) : Led :=
  match c with
  | CInit pin => init pin s
  | CSetOn => setOn s
  | CSetOff => setOff s
  | CSetBlink r now => setBlink r now s
  | CSetPattern n r p now => setPattern n r p now s
  | CUpdate now => update now s
  end.

Definition calls (cs : list Call) (s : Led) : Led :=
  fold_left (fun s c => call c s) cs s.

Definition updates (times : list Z) (s : Led) : Led :=
  fold_left (fun s t => update t s) times s.

(** The level the pin was last driven to (low before any write). *)
Definition pin_level (g : list Gpio) : bool :=
  fold_left (fun lvl op => match op with
                           | DigitalWrite _ l => l
                           | PinModeOutput _ => lvl
                           end) g false.

(** The times [t0 + rate], [t0 + 2 rate], ..., [t0 + k rate]. *)
Definition ticks (t0 rate : Z) (k : nat) : list Z :=
  map (fun i => t0 + Z.of_nat i * rate) (seq 1 k).

End StatusLed.

(** * The uptime of [MonitoringTask::logSystemHealth]

    [uptime = millis() / 1000] split into days, hours, minutes and
    seconds, in [uint32_t]. *)
Definition uptime_fields (ms : Z) : Z * Z * Z * Z :=
  let uptime := to_uint (to_uint ms / 1000) in
  let days := to_uint (uptime / (24 * 3600)) in
  let uptime1 := to_uint (uptime mod (24 * 3600)) in
  let hours := to_uint (uptime1 / 3600) in
  let uptime2 := to_uint (uptime1 mod 3600) in
  let minutes := to_uint (uptime2 / 60) in
  let seconds := to_uint (uptime2 mod 60) in
  (days, hours, minutes, seconds).

(** What every state of the LED satisfies. *)
Definition led_inv (s : StatusLed.Led) : Prop :=
  StatusLed.isBlinking s && StatusLed.isPattern s = false /\
  StatusLed.pin_level (StatusLed.gpio s) = StatusLed.ledState s /\
  0 <= StatusLed.currentPatternStep s < 256.

(** What holds while a pattern of [n] blinks runs. *)
Definition pattern_inv (n : Z) (s : StatusLed.Led) : Prop :=
  StatusLed.isPattern s = true /\
  StatusLed.isBlinking s = false /\
  StatusLed.patternBlinks s = n /\
  StatusLed.ledState s = Z.even (StatusLed.currentPatternStep s) /\
  0 <= StatusLed.currentPatternStep s <= 255 /\
  (n < 128 -> StatusLed.currentPatternStep s <= 2 * n).

(** The state [k] toggles into a pattern of [n] blinks that was started
    at [t0] on pin [pin], with [len] pin operations made before it. *)
Definition blinking_at (n rate pause t0 pin : Z) (len k : nat)
    (s : StatusLed.Led) : Prop :=
  StatusLed.isBlinking s = false /\
  StatusLed.isPattern s = true /\
  StatusLed.patternBlinks s = n /\
  StatusLed.patternBlinkRate s = rate /\
  StatusLed.patternPauseTime s = pause /\
  StatusLed.ledPin s = pin /\
  StatusLed.currentPatternStep s = Z.of_nat k /\
  StatusLed.ledState s = Z.even (Z.of_nat k) /\
  StatusLed.lastChangeTime s = to_uint (t0 + Z.of_nat k * rate) /\
  List.length (StatusLed.gpio s) = (len + 1 + k)%nat.

(** The callback [initialize] puts into slot [k]. *)
Definition default_callback (k : Slot) : Fn :=
  match k with
  | SlotStart => OTAManager.default_onStart
  | SlotEnd => OTAManager.default_onEnd
  | SlotProgress => OTAManager.default_onProgress
  | SlotError => OTAManager.default_onError
  end.

(** * Properties *)

(** ** Traces only grow *)

Lemma new_events_app w w' evs :
  trace w' = trace w ++ evs -> new_events w w' = evs.
Proof.
  intros H. unfold new_events. rewrite H.
  rewrite skipn_app, skipn_all, Nat.sub_diag. reflexivity.
Qed.

(** ** Frame rules

    A relation between the world before and after that is reflexive and
    transitive is respected by a computation as soon as each of its
    primitive steps respects it. *)

Section Frames.

Variable R : World -> World -> Prop.
Hypothesis R_refl : forall w, R w w.
Hypothesis R_trans : forall a b c, R a b -> R b c -> R a c.

Lemma respects_ret {A} (a : A) : respects R (ret a).
Proof. intros w a' w' H. inversion H; subst. apply R_refl. Qed.

Lemma respects_gets {A} (f : World -> A) : respects R (gets f).
Proof. intros w a' w' H. inversion H; subst. apply R_refl. Qed.

Lemma respects_crash {A} : respects R (@crash A).
Proof. intros w a w' H. discriminate H. Qed.

Lemma respects_bind {A B} (c : M A) (k : A -> M B) :
  respects R c -> (forall a, respects R (k a)) -> respects R (bind c k).
Proof.
  intros Hc Hk w b w' H. unfold bind in H.
  destruct (c w) as [[a w1]|] eqn:E; [|discriminate].
  eapply R_trans; [eapply Hc; eassumption | eapply Hk; eassumption].
Qed.

Lemma respects_modify (f : World -> World) :
  (forall w, R w (f w)) -> respects R (modify f).
Proof. intros Hf w a w' H. inversion H; subst. apply Hf. Qed.

Lemma respects_when (b : bool) (c : M unit) :
  respects R c -> respects R (when b c).
Proof. intros Hc. destruct b; [exact Hc | apply respects_ret]. Qed.

Lemma respects_discard {A} (c : M A) : respects R c -> respects R (discard c).
Proof.
  intros Hc. apply respects_bind; [exact Hc | intros; apply respects_ret].
Qed.

End Frames.

Create HintDb frames.

Ltac head_of t := lazymatch t with ?f _ => head_of f | _ => t end.

(** [frame refl trans prim]: walk the syntax of a computation with the
    frame rules, unfolding the functions it calls unless a lemma about
    them is in the hint database [frames]; [prim] closes the side
    condition of a [modify]. *)
Ltac frame refl trans prim :=
  repeat (intros;
    lazymatch goal with
    | |- respects _ (ret _) => apply (respects_ret _ refl)
    | |- respects _ (gets _) => apply (respects_gets _ refl)
    | |- respects _ crash => apply respects_crash
    | |- respects _ (bind _ _) => apply (respects_bind _ trans)
    | |- respects _ (when _ _) => apply (respects_when _ refl)
    | |- respects _ (discard _) => apply (respects_discard _ refl trans)
    | |- respects _ (modify _) => apply respects_modify; prim
    | |- respects _ (if ?b then _ else _) => destruct b
    | |- respects _ (match ?x with _ => _ end) => destruct x
    | |- respects _ ?c =>
        first [ solve [auto with frames nocore]
              | let h := head_of c in unfold h; cbv zeta ]
    end).

(** ** The in-progress flag is left alone *)




















(** ** Evaluating an operation on a symbolic world *)

(** Call-by-value evaluation that leaves arithmetic and list append
    alone, so that the world after a run is a record of plain fields. *)
Ltac run :=
  cbv -[app Z.add Z.sub Z.mul Z.div Z.modulo Z.rem Z.quot Z.opp Z.pow
        Z.geb Z.gtb Z.eqb Z.ltb Z.leb to_uint to_int int_add int_sub
        UINT_MAX1 handle_eqb String.eqb].

Ltac run_in H :=
  cbv -[app Z.add Z.sub Z.mul Z.div Z.modulo Z.rem Z.quot Z.opp Z.pow
        Z.geb Z.gtb Z.eqb Z.ltb Z.leb to_uint to_int int_add int_sub
        UINT_MAX1 handle_eqb String.eqb] in H.

(** The same, also deciding comparisons of integer literals. *)
Ltac run_lit :=
  cbv -[app Z.add Z.sub Z.mul Z.div Z.modulo Z.rem Z.quot Z.opp Z.pow
        to_uint to_int int_add int_sub UINT_MAX1 handle_eqb String.eqb].

(** Replace a world by the record of its fields. *)
Ltac open_world w :=
  destruct w as
    [[w_initialized w_netcb w_mutex w_lastLog w_lastErrorLog w_warned w_lastStep]
     [w_hostname w_password w_port w_onStart w_onEnd w_onProgress w_onError w_begun]
     [w_taskHandle w_inProgress w_statusMutex w_wdtReg w_started w_lastStatus
      w_lastNet w_lastPercent]
     [w_dataMutex w_suspended] w_next w_trace];
  cbn [mgr ota task sensor next_handle trace
       initialized networkCheckCallback mutex lastLog lastErrorLog warnedOnce
       lastPrintedStep _hostname _password _port _start_callback _end_callback
       _progress_callback _error_callback _begun
       taskHandle otaUpdateInProgress otaStatusMutex wdtRegistered started
       lastStatusLog lastNetworkState lastPercent dataMutex suspended] in *.

Ltac open_env env :=
  destruct env as
    [[e_esp32 e_eth e_wifi e_led] e_alloc e_millis e_netcheck e_linkSpeed
     e_ethIP e_wifiUp e_wifiIP e_ethMgr e_semOk e_taskOk e_wdtOk];
  cbn [build ESP32 ETH_defined CONFIG_WIFI_ENABLED ENABLE_STATUS_LED alloc_ok
       millis net_check ETH_linkSpeed ETH_localIP WiFi_connected WiFi_localIP
       EthernetManager_isConnected sem_take_ok xTaskCreate_ok wdt_register_ok]
    in *.

Ltac norm_trace := cbv [trace]; rewrite <- ?app_assoc; cbn [app].

(** ** [initialize] on a rejected configuration *)

(** C2. A call of [initialize] with a null or empty hostname, or with
    port 0, returns normally and leaves the [initialized] flag, the stored
    network-check callback and the whole configuration of the transfer
    library as they were; it makes no call into the transfer library.
    (The mutex handle is the one static it can still set: the mutex is
    created before the parameters are looked at, so when it already
    exists every static of [OTAManager] is unchanged.) *)
Theorem initialize_rejects_invalid_config :
  forall env hostname password port cb w,
    rejected hostname port ->
    exists w' evs,
      OTAManager.initialize env hostname password port cb w = Some (tt, w') /\
      initialized (mgr w') = initialized (mgr w) /\
      networkCheckCallback (mgr w') = networkCheckCallback (mgr w) /\
      ota w' = ota w /\
      task w' = task w /\
      trace w' = trace w ++ evs /\
      Forall (fun e => is_ota_call e = false) evs /\
      (mutex (mgr w) <> None -> mgr w' = mgr w).
Proof.
  intros env hostname password port cb w Hrej.
  assert (Hcase : OTAManager.null_or_empty hostname = true \/ port = 0).
  { destruct Hrej as [H|[H|H]]; subst; auto. }
  open_world w. open_env env.
  unfold OTAManager.initialize, OTAManager.initialize_locked.
  destruct Hcase as [Hn|Hp];
    [ rewrite Hn
    | subst port; destruct (OTAManager.null_or_empty hostname) ].
  all: destruct w_mutex as [h|]; run_lit;
    [| destruct (e_alloc w_next); run_lit ].
  all: eexists; eexists.
  all: split; [reflexivity|].
  all: split; [reflexivity|].
  all: split; [reflexivity|].
  all: split; [reflexivity|].
  all: split; [reflexivity|].
  all: split; [norm_trace; reflexivity|].
  all: split; [repeat constructor|].
  all: intros Hne; try (exfalso; apply Hne; reflexivity); reflexivity.
Qed.

(** ** The callback setters *)

(** C8. After a successful initialisation, a setter called with a null
    callback changes nothing: no static and no slot of the transfer
    library is touched, nothing is logged, and the call returns; all it
    does is take and release the lock. *)
Theorem setter_null_callback_is_noop :
  forall k w,
    initialized (mgr w) = true ->
    exists w',
      setter k None w = Some (tt, w') /\
      mgr w' = mgr w /\ ota w' = ota w /\ task w' = task w /\
      sensor w' = sensor w /\
      trace w' = trace w ++ [EvTake (mutex (mgr w)); EvGive (mutex (mgr w))].
Proof.
  intros k w Hinit. open_world w. subst w_initialized.
  destruct k; run; eexists; repeat split; norm_trace; reflexivity.
Qed.

(** A setter called before [initialize] succeeded. *)
Lemma setter_not_initialized k cb w :
  initialized (mgr w) = false ->
  exists w',
    setter k cb w = Some (tt, w') /\
    mgr w' = mgr w /\ ota w' = ota w /\
    trace w' = trace w ++
      [EvTake (mutex (mgr w)); not_initialized_warning; EvGive (mutex (mgr w))].
Proof.
  intros Hinit. open_world w. subst w_initialized.
  destruct k; run; eexists; repeat split; norm_trace; reflexivity.
Qed.

(** A setter called with a callback after [initialize] succeeded. *)
Lemma setter_installs k f w :
  initialized (mgr w) = true ->
  exists w',
    setter k (Some f) w = Some (tt, w') /\
    mgr w' = mgr w /\
    slot k (ota w') = Some f /\
    (forall k', k' <> k -> slot k' (ota w') = slot k' (ota w)).
Proof.
  intros Hinit. open_world w. subst w_initialized.
  destruct k; run; eexists; repeat split;
    intros k' Hk; destruct k'; try reflexivity; contradiction Hk; reflexivity.
Qed.

(** The library's dispatch calls the function in the matching slot once. *)
Lemma fire_invokes_slot e f w :
  slot (slot_of e) (ota w) = Some f ->
  exists w', fire e w = Some (tt, w') /\
             trace w' = trace w ++ [EvInvoke f (args_of e)].
Proof.
  intros Hs. unfold fire, bind, gets. rewrite Hs.
  eexists. split; reflexivity.
Qed.

(** C4 (amended). For each of the four setters: called while
    [initialized] is false it leaves every slot and every static
    unchanged, logs the warning "Cannot set callback - OTA not
    initialized" and returns (the setters return [void], so there is no
    returned indication); called while [initialized] is true with a
    non-null callback it stores the callback in its slot, leaves the other
    three slots alone, and the next occurrence of the matching lifecycle
    event invokes that callback exactly once. *)
Theorem setter_gating :
  forall k cb w,
    (initialized (mgr w) = false ->
       exists w',
         setter k cb w = Some (tt, w') /\
         mgr w' = mgr w /\ ota w' = ota w /\
         trace w' = trace w ++
           [EvTake (mutex (mgr w)); not_initialized_warning;
            EvGive (mutex (mgr w))]) /\
    (initialized (mgr w) = true -> forall f, cb = Some f ->
       exists w',
         setter k cb w = Some (tt, w') /\
         slot k (ota w') = Some f /\
         (forall k', k' <> k -> slot k' (ota w') = slot k' (ota w)) /\
         forall e, slot_of e = k ->
           exists w'', fire e w' = Some (tt, w'') /\
                       trace w'' = trace w' ++ [EvInvoke f (args_of e)]).
Proof.
  intros k cb w. split.
  - intros Hinit. apply setter_not_initialized. exact Hinit.
  - intros Hinit f ->.
    destruct (setter_installs k f w Hinit) as (w' & Hrun & _ & Hslot & Hother).
    exists w'. repeat split; try assumption.
    intros e He. apply fire_invokes_slot. rewrite He. exact Hslot.
Qed.

(** C4 as stated asks the setter to return a failure indication when it
    is called before [initialize] has succeeded.  The setters return
    [void]: the value returned by the rejected call on [boot] and by the
    successful call on [configured] is the same, so no reading of the
    returned value tells failure from success. *)
Lemma setter_returns_no_failure_indication :
  ~ exists failed : unit -> bool,
      (forall r w', OTAManager.setStartCallback (Some "onStart") boot
                    = Some (r, w') -> failed r = true) /\
      (forall r w', OTAManager.setStartCallback (Some "onStart") configured
                    = Some (r, w') -> failed r = false).
Proof.
  intros (failed & Hfail & Hok).
  assert (E1 : exists w', OTAManager.setStartCallback (Some "onStart") boot
                          = Some (tt, w')) by (eexists; vm_compute; reflexivity).
  assert (E2 : exists w', OTAManager.setStartCallback (Some "onStart") configured
                          = Some (tt, w')) by (eexists; vm_compute; reflexivity).
  destruct E1 as (w1 & E1). destruct E2 as (w2 & E2).
  specialize (Hfail tt w1 E1). specialize (Hok tt w2 E2). congruence.
Qed.

Lemma setter_gating_witness :
  (exists w',
     setter SlotStart (Some "onStart"%string) boot = Some (tt, w') /\
     mgr w' = mgr boot /\ ota w' = ota boot /\
     trace w' = trace boot ++
       [EvTake (mutex (mgr boot)); not_initialized_warning;
        EvGive (mutex (mgr boot))]) /\
  (exists w',
     setter SlotError (Some "onError"%string) configured = Some (tt, w') /\
     slot SlotError (ota w') = Some "onError"%string /\
     (forall k', k' <> SlotError ->
        slot k' (ota w') = slot k' (ota configured)) /\
     forall e, slot_of e = SlotError ->
       exists w'', fire e w' = Some (tt, w'') /\
                   trace w'' = trace w' ++ [EvInvoke "onError"%string (args_of e)]).
Proof.
  split.
  - apply (setter_gating SlotStart (Some "onStart"%string) boot). reflexivity.
  - apply (setter_gating SlotError (Some "onError"%string) configured);
      reflexivity.
Defined.

Lemma setter_null_callback_is_noop_witness :
  exists w',
    setter SlotProgress None configured = Some (tt, w') /\
    mgr w' = mgr configured /\ ota w' = ota configured /\
    task w' = task configured /\ sensor w' = sensor configured /\
    trace w' = trace configured ++
      [EvTake (mutex (mgr configured)); EvGive (mutex (mgr configured))].
Proof.
  apply (setter_null_callback_is_noop SlotProgress configured). reflexivity.
Defined.

Lemma initialize_rejects_invalid_config_witness :
  exists w' evs,
    OTAManager.initialize sample_env (Some ""%string) (Some "pass"%string)
                          3232 None configured = Some (tt, w') /\
    initialized (mgr w') = initialized (mgr configured) /\
    networkCheckCallback (mgr w') = networkCheckCallback (mgr configured) /\
    ota w' = ota configured /\
    task w' = task configured /\
    trace w' = trace configured ++ evs /\
    Forall (fun e => is_ota_call e = false) evs /\
    (mutex (mgr configured) <> None -> mgr w' = mgr configured).
Proof.
  apply (initialize_rejects_invalid_config sample_env (Some ""%string)
           (Some "pass"%string) 3232 None configured).
  right. left. reflexivity.
Defined.


(** ** [initialize] on an accepted configuration *)

Lemma initialize_accepted env hostname password port cb w :
  accepted hostname port -> can_lock env w ->
  exists w',
    OTAManager.initialize env hostname password port cb w = Some (tt, w') /\
    initialized (mgr w') = true /\
    mutex (mgr w') <> None /\
    networkCheckCallback (mgr w') = cb /\
    _hostname (ota w') = OTAManager.c_str hostname /\
    _password (ota w') = password_after password (_password (ota w)) /\
    _port (ota w') = port_after port (_port (ota w)) /\
    slot SlotStart (ota w') = Some OTAManager.default_onStart /\
    slot SlotEnd (ota w') = Some OTAManager.default_onEnd /\
    slot SlotProgress (ota w') = Some OTAManager.default_onProgress /\
    slot SlotError (ota w') = Some OTAManager.default_onError.
Proof.
  intros [Hh Hp] Hlock. apply Z.eqb_neq in Hp.
  unfold can_lock, password_after, port_after in *.
  open_world w. open_env env.
  destruct hostname as [[|c s]|]; try discriminate Hh.
  assert (Hm : exists h,
            (match w_mutex with Some _ => w_mutex | None => Some w_next end)
            = Some h) by (destruct w_mutex; eauto).
  destruct w_mutex as [h|]; run;
    [| destruct Hlock as [Hl|Hl]; [contradiction Hl; reflexivity|];
       rewrite Hl; run ].
  all: rewrite Hp; run.
  all: destruct password as [[|c' s']|]; run.
  all: destruct (port =? 3232); run.
  all: eexists; repeat split; discriminate.
Qed.

(** The calls [initialize] makes into the transfer library on an accepted
    configuration. *)
Lemma initialize_accepted_calls env hostname password port cb w :
  accepted hostname port -> can_lock env w ->
  exists w' evs,
    OTAManager.initialize env hostname password port cb w = Some (tt, w') /\
    trace w' = trace w ++ evs /\
    In (EvOtaSetHostname (OTAManager.c_str hostname)) evs /\
    (OTAManager.null_or_empty password = false ->
       In (EvOtaSetPassword (OTAManager.c_str password)) evs) /\
    (forall q, In (EvOtaSetPort q) evs <-> q = port /\ port <> 3232).
Proof.
  intros [Hh Hp] Hlock. apply Z.eqb_neq in Hp.
  unfold can_lock in *.
  open_world w. open_env env.
  destruct hostname as [[|c s]|]; try discriminate Hh.
  destruct w_mutex as [h|]; run;
    [| destruct Hlock as [Hl|Hl]; [contradiction Hl; reflexivity|];
       rewrite Hl; run ].
  all: rewrite Hp; run.
  all: destruct password as [[|c' s']|]; run.
  all: destruct (port =? 3232) eqn:E; run.
  all: eexists; eexists; split; [reflexivity|].
  all: split; [norm_trace; reflexivity|].
  all: split; [cbn [In]; tauto|].
  all: split; [intros Hpw; try discriminate Hpw; cbn [In]; tauto|].
  all: intros q; split.
  all: try (intros [-> Hne];
            first [ apply Z.eqb_eq in E; destruct (Hne E) | tauto ]).
  all: intros Hin.
  all: repeat (destruct Hin as [Hin|Hin]; [try discriminate Hin|]).
  all: try contradiction.
  all: inversion Hin; subst q; split; [reflexivity|].
  all: intros X; rewrite X in E; discriminate E.
Qed.

(** When no mutex exists and none can be created, [initialize] leaves
    the statics and the transfer library alone. *)
Lemma initialize_no_lock env hostname password port cb w :
  ~ can_lock env w ->
  exists w',
    OTAManager.initialize env hostname password port cb w = Some (tt, w') /\
    mgr w' = mgr w /\ ota w' = ota w /\ next_handle w' = next_handle w.
Proof.
  unfold can_lock. intros Hno.
  open_world w. open_env env.
  destruct w_mutex as [h|]; [contradiction Hno; left; discriminate|].
  destruct (e_alloc w_next) eqn:Ea; [contradiction Hno; right; reflexivity|].
  run. rewrite Ea. run. eexists. repeat split.
Qed.

(** C5 as stated fails: after [initialize("dev-a", "secret", 8266, check)]
    a second call [initialize("dev-b", "other", 3232, nullptr)] leaves the
    transfer library with port 8266, not with port 3232 of the second
    call: for port 3232 [initialize] makes no [setPort] call. *)
Lemma reinitialize_with_port_3232_keeps_old_port :
  ~ (forall wA wB,
       OTAManager.initialize sample_env (Some "dev-a") (Some "secret") 8266
                             (Some "check") boot = Some (tt, wA) ->
       OTAManager.initialize sample_env (Some "dev-b") (Some "other") 3232 None
                             wA = Some (tt, wB) ->
       configured_with (Some "dev-b") (Some "other") 3232 None wB).
Proof.
  intros H.
  pose (wA := after (OTAManager.initialize sample_env (Some "dev-a")
                       (Some "secret") 8266 (Some "check")) boot).
  pose (wB := after (OTAManager.initialize sample_env (Some "dev-b")
                       (Some "other") 3232 None) wA).
  assert (RA : OTAManager.initialize sample_env (Some "dev-a") (Some "secret")
                 8266 (Some "check") boot = Some (tt, wA))
    by (vm_compute; reflexivity).
  assert (RB : OTAManager.initialize sample_env (Some "dev-b") (Some "other")
                 3232 None wA = Some (tt, wB))
    by (vm_compute; reflexivity).
  destruct (H wA wB RA RB) as (_ & _ & _ & Hport & _).
  vm_compute in Hport. discriminate Hport.
Qed.

(** C5 (amended). Let [initialize] be called with an accepted
    configuration A and then with an accepted configuration B; both calls
    return.  If the mutex of the manager exists, or one of the two calls
    can create it, then afterwards [initialized] is true and the hostname
    and the network-check callback are B's; the second call passes B's
    hostname to the transfer library, and B's password when that is not
    empty, which then is the password of the library.  The port is B's
    only when B's port is not 3232: exactly then the second call makes a
    [setPort] call, and otherwise the library keeps the port it had before
    the second call (after a first call that had a mutex, A's port unless
    that was 3232).  If the mutex neither exists nor can be created in
    either call, the two calls leave the statics of the manager and the
    configuration of the transfer library as they were. *)
Theorem initialize_twice :
  forall envA envB hA pA portA cbA hB pB portB cbB w,
    accepted hA portA -> accepted hB portB ->
    exists wA wB,
      OTAManager.initialize envA hA pA portA cbA w = Some (tt, wA) /\
      OTAManager.initialize envB hB pB portB cbB wA = Some (tt, wB) /\
      (can_lock envA w \/ can_lock envB w ->
         initialized (mgr wB) = true /\
         _hostname (ota wB) = OTAManager.c_str hB /\
         networkCheckCallback (mgr wB) = cbB /\
         In (EvOtaSetHostname (OTAManager.c_str hB)) (new_events wA wB) /\
         (OTAManager.null_or_empty pB = false ->
            In (EvOtaSetPassword (OTAManager.c_str pB)) (new_events wA wB) /\
            _password (ota wB) = OTAManager.c_str pB) /\
         (forall q, In (EvOtaSetPort q) (new_events wA wB) <->
                    q = portB /\ portB <> 3232) /\
         _port (ota wB) = port_after portB (_port (ota wA)) /\
         (can_lock envA w ->
            _port (ota wA) = port_after portA (_port (ota w)))) /\
      (~ (can_lock envA w \/ can_lock envB w) ->
         mgr wB = mgr w /\ ota wB = ota w).
Proof.
  intros envA envB hA pA portA cbA hB pB portB cbB w HA HB.
  assert (Second : forall wA, can_lock envB wA ->
    exists wB,
      OTAManager.initialize envB hB pB portB cbB wA = Some (tt, wB) /\
      initialized (mgr wB) = true /\
      _hostname (ota wB) = OTAManager.c_str hB /\
      networkCheckCallback (mgr wB) = cbB /\
      In (EvOtaSetHostname (OTAManager.c_str hB)) (new_events wA wB) /\
      (OTAManager.null_or_empty pB = false ->
         In (EvOtaSetPassword (OTAManager.c_str pB)) (new_events wA wB) /\
         _password (ota wB) = OTAManager.c_str pB) /\
      (forall q, In (EvOtaSetPort q) (new_events wA wB) <->
                 q = portB /\ portB <> 3232) /\
      _port (ota wB) = port_after portB (_port (ota wA))).
  { intros wA HlockB.
    destruct (initialize_accepted envB hB pB portB cbB wA HB HlockB)
      as (wB & RB & IB & _ & CB & NB & PB & QB & _).
    destruct (initialize_accepted_calls envB hB pB portB cbB wA HB HlockB)
      as (wB' & evs & RB' & TB & HhB & HpB & HqB).
    rewrite RB in RB'. inversion RB'; subst wB'; clear RB'.
    exists wB. rewrite (new_events_app _ _ _ TB).
    repeat (split; [assumption|]).
    split; [|split; assumption].
    intros Hne. split; [exact (HpB Hne)|].
    rewrite PB. unfold password_after. rewrite Hne. reflexivity. }
  assert (DA : can_lock envA w \/ ~ can_lock envA w).
  { unfold can_lock. destruct (mutex (mgr w)) as [h|];
      [left; left; discriminate|].
    destruct (alloc_ok envA (next_handle w));
      [left; right; reflexivity | right; intros [X|X]; [apply X; reflexivity | discriminate X]]. }
  assert (DB : can_lock envB w \/ ~ can_lock envB w).
  { unfold can_lock. destruct (mutex (mgr w)) as [h|];
      [left; left; discriminate|].
    destruct (alloc_ok envB (next_handle w));
      [left; right; reflexivity | right; intros [X|X]; [apply X; reflexivity | discriminate X]]. }
  destruct DA as [LA|NA].
  - destruct (initialize_accepted envA hA pA portA cbA w HA LA)
      as (wA & RA & _ & MA & _ & _ & _ & QA & _).
    destruct (Second wA (or_introl MA)) as (wB & RB & Rest).
    exists wA, wB. split; [exact RA|]. split; [exact RB|]. split.
    + intros _. decompose [and] Rest. repeat (split; [assumption|]).
      intros _. exact QA.
    + intros No. contradiction No. left. exact LA.
  - destruct (initialize_no_lock envA hA pA portA cbA w NA)
      as (wA & RA & MA & OA & NHA).
    assert (Same : can_lock envB wA <-> can_lock envB w).
    { unfold can_lock. rewrite MA, NHA. tauto. }
    destruct DB as [LB|NB].
    + destruct (Second wA (proj2 Same LB)) as (wB & RB & Rest).
      exists wA, wB. split; [exact RA|]. split; [exact RB|]. split.
      * intros _. decompose [and] Rest. repeat (split; [assumption|]).
        intros LA. contradiction.
      * intros No. contradiction No. right. exact LB.
    + assert (NB' : ~ can_lock envB wA) by (rewrite Same; exact NB).
      destruct (initialize_no_lock envB hB pB portB cbB wA NB')
        as (wB & RB & MB & OB & _).
      exists wA, wB. split; [exact RA|]. split; [exact RB|]. split.
      * intros [LA|LB]; contradiction.
      * intros _. split; congruence.
Qed.

Lemma initialize_twice_witness :
  exists wA wB,
    OTAManager.initialize sample_env (Some "dev-a") (Some "secret") 8266
                          (Some "check") boot = Some (tt, wA) /\
    OTAManager.initialize sample_env (Some "dev-b") (Some "other") 3232 None wA
      = Some (tt, wB) /\
    (can_lock sample_env boot \/ can_lock sample_env boot ->
       initialized (mgr wB) = true /\
       _hostname (ota wB) = OTAManager.c_str (Some "dev-b") /\
       networkCheckCallback (mgr wB) = None /\
       In (EvOtaSetHostname (OTAManager.c_str (Some "dev-b")))
          (new_events wA wB) /\
       (OTAManager.null_or_empty (Some "other") = false ->
          In (EvOtaSetPassword (OTAManager.c_str (Some "other")))
             (new_events wA wB) /\
          _password (ota wB) = OTAManager.c_str (Some "other")) /\
       (forall q, In (EvOtaSetPort q) (new_events wA wB) <->
                  q = 3232 /\ 3232 <> 3232) /\
       _port (ota wB) = port_after 3232 (_port (ota wA)) /\
       (can_lock sample_env boot ->
          _port (ota wA) = port_after 8266 (_port (ota boot)))) /\
    (~ (can_lock sample_env boot \/ can_lock sample_env boot) ->
       mgr wB = mgr boot /\ ota wB = ota boot).
Proof.
  apply (initialize_twice sample_env sample_env (Some "dev-a") (Some "secret")
           8266 (Some "check") (Some "dev-b") (Some "other") 3232 None boot).
  - split; [reflexivity | discriminate].
  - split; [reflexivity | discriminate].
Defined.

(** What the second call does with an empty password: it logs that the
    update service runs without password protection and makes no
    [setPassword] call, so a transfer library that keeps what it was
    given still holds the password of the first call. *)
Lemma reinitialize_without_password_logs_unprotected :
  let wA := after (OTAManager.initialize sample_env (Some "dev-a")
                     (Some "secret") 3232 (Some "check")) boot in
  let wB := after (OTAManager.initialize sample_env (Some "dev-b") (Some "")
                     3232 None) wA in
  new_events wA wB =
    [EvTake (Some 1%nat);
     EvLog LOG_D "OTAMgr" "Initializing OTA Manager";
     EvOtaSetHostname "dev-b";
     EvLog LOG_W "OTAMgr" "OTA running without password protection";
     EvOtaOn SlotStart OTAManager.default_onStart;
     EvOtaOn SlotEnd OTAManager.default_onEnd;
     EvOtaOn SlotProgress OTAManager.default_onProgress;
     EvOtaOn SlotError OTAManager.default_onError;
     EvOtaBegin;
     EvLog LOG_I "OTAMgr" "OTA Manager initialized successfully";
     EvGive (Some 1%nat)] /\
  _password (ota wB) = "secret".
Proof. vm_compute. split; reflexivity. Qed.

(** ** The readiness check *)

(** Decide every boolean test the goal is stuck on, evaluating after each. *)
Ltac split_ifs :=
  repeat match goal with
         | |- context [if ?b then _ else _] =>
             lazymatch type of b with bool => destruct b eqn:?; run end
         end.

(** C6. When a network-check predicate is stored, [isNetworkReady]
    calls it, returns exactly its result and reads no link state.  When
    none is stored, the result is the default probe (Ethernet link with a
    non-zero address, or else WiFi association with a non-zero address);
    the predicate is then not called, Ethernet is asked first whenever it
    is compiled in, and WiFi is asked only after Ethernet said no.  Link
    state is read only when no predicate is stored. *)
Theorem isNetworkReady_predicate_overrides_probe :
  forall env w,
    (forall f, networkCheckCallback (mgr w) = Some f ->
       exists w' evs,
         OTAManager.isNetworkReady env w = Some (net_check env f, w') /\
         trace w' = trace w ++ evs /\
         In (EvNetCheck f (net_check env f)) evs /\
         existsb is_probe evs = false) /\
    (networkCheckCallback (mgr w) = None ->
       exists w' evs,
         OTAManager.isNetworkReady env w
           = Some (eth_ready env || wifi_ready env, w') /\
         trace w' = trace w ++ evs /\
         existsb is_net_check evs = false /\
         (ESP32 (build env) && ETH_defined (build env) = true ->
            find is_probe evs = Some EvEthLinkSpeed) /\
         (existsb is_wifi_probe evs = true -> eth_ready env = false)) /\
    (forall r w',
       OTAManager.isNetworkReady env w = Some (r, w') ->
       existsb is_probe (new_events w w') = true ->
       networkCheckCallback (mgr w) = None).
Proof.
  intros env w.
  assert (H1 : forall f, networkCheckCallback (mgr w) = Some f ->
       exists w' evs,
         OTAManager.isNetworkReady env w = Some (net_check env f, w') /\
         trace w' = trace w ++ evs /\
         In (EvNetCheck f (net_check env f)) evs /\
         existsb is_probe evs = false).
  { intros f Hf. open_world w. open_env env. subst w_netcb. run.
    eexists; eexists. split; [reflexivity|].
    split; [norm_trace; reflexivity|].
    split; [right; left; reflexivity | reflexivity]. }
  split; [exact H1|]. split.
  - intros Hf. open_world w. open_env env. subst w_netcb.
    unfold eth_ready, wifi_ready. run.
    destruct e_esp32, e_eth, e_wifi; run; split_ifs.
    all: eexists; eexists; split; [reflexivity|].
    all: split; [norm_trace; reflexivity|].
    all: split; [reflexivity|].
    all: split; [intros; first [reflexivity | discriminate]|].
    all: intros; first [reflexivity | discriminate].
  - intros r w' Hrun Hprobe.
    destruct (networkCheckCallback (mgr w)) as [f|] eqn:Hf; [|reflexivity].
    destruct (H1 f eq_refl) as (w1 & evs & R & T & _ & Hno).
    rewrite R in Hrun. inversion Hrun; subst w1.
    rewrite (new_events_app _ _ _ T) in Hprobe. congruence.
Qed.

(** ** [handleUpdates] *)

Lemma gate_kept_refl w : gate_kept w w.
Proof.
  repeat (split; [reflexivity|]).
  exists []. rewrite app_nil_r. split; [reflexivity | constructor].
Qed.

Lemma gate_kept_trans a b c : gate_kept a b -> gate_kept b c -> gate_kept a c.
Proof.
  intros (I1 & M1 & L1 & e1 & T1 & A1) (I2 & M2 & L2 & e2 & T2 & A2).
  repeat (split; [congruence|]).
  exists (e1 ++ e2). split.
  - rewrite T2, T1, app_assoc. reflexivity.
  - apply Forall_app. split; assumption.
Qed.

Ltac gate_prim :=
  intros; repeat (split; [reflexivity|]);
  first [ exists []; split; [cbn; rewrite app_nil_r; reflexivity | constructor]
        | eexists [_]; split; [reflexivity | repeat constructor] ].

Lemma gate_kept_isNetworkReady env :
  respects gate_kept (OTAManager.isNetworkReady env).
Proof. frame gate_kept_refl gate_kept_trans gate_prim. Qed.

Lemma service_locked_run env w :
  initialized (mgr w) = true ->
  exists w' evs,
    OTAManager.service_locked env w = Some (tt, w') /\
    trace w' = trace w ++ evs /\
    firstn 2 evs = [EvTake (mutex (mgr w)); EvOtaHandle] /\
    filter is_ota_call evs = [EvOtaHandle] /\
    last evs EvOtaHandle = EvGive (mutex (mgr w)).
Proof.
  intros Hinit. open_world w. open_env env. subst w_initialized. run.
  split_ifs.
  all: eexists; eexists; split; [reflexivity|].
  all: split; [norm_trace; reflexivity|].
  all: repeat split.
Qed.

Lemma log_not_connected_run env w :
  exists w',
    OTAManager.log_not_connected env w = Some (tt, w') /\
    trace w' = trace w ++
      EvMillis :: (if error_log_due env w then [not_connected_error] else []) /\
    lastErrorLog (mgr w') =
      (if error_log_due env w then to_uint (millis env)
       else lastErrorLog (mgr w)).
Proof.
  unfold error_log_due. open_world w. open_env env. run.
  destruct (to_uint (to_uint e_millis - w_lastErrorLog) >=? 10000); run.
  all: eexists; split; [reflexivity|].
  all: split; [norm_trace; reflexivity | reflexivity].
Qed.

Lemma filter_none {A} (p : A -> bool) (l : list A) :
  Forall (fun x => p x = false) l -> filter p l = [].
Proof.
  induction 1 as [|x l Hx _ IH]; [reflexivity|].
  cbn. rewrite Hx. exact IH.
Qed.

(** C3. [handleUpdates] with [initialized] false does nothing at all: the
    world, trace included, is the one it started from, so not even the
    lock is taken.  With [initialized] true it runs the readiness check.
    If the check says no, no call into the transfer library is made; the
    error line is logged when at least [OTA_ERROR_LOG_INTERVAL_MS] have
    passed since it was last logged, and then the time is remembered.  If
    the check says yes, the next thing is to take the lock, and under it
    (the flag, read again, still being true) [ArduinoOTA.handle()] is
    called, once; the lock is released at the end. *)
Theorem handleUpdates_gating :
  forall env w,
    (initialized (mgr w) = false ->
       OTAManager.handleUpdates env w = Some (tt, w)) /\
    (initialized (mgr w) = true ->
       forall ready w1,
         OTAManager.isNetworkReady env w = Some (ready, w1) ->
         exists w' evs,
           OTAManager.handleUpdates env w = Some (tt, w') /\
           trace w' = trace w1 ++ evs /\
           if ready then
             firstn 2 evs = [EvTake (mutex (mgr w)); EvOtaHandle] /\
             filter is_ota_call evs = [EvOtaHandle] /\
             last evs EvOtaHandle = EvGive (mutex (mgr w))
           else
             filter is_ota_call (new_events w w') = [] /\
             evs = EvMillis ::
                   (if error_log_due env w then [not_connected_error] else []) /\
             lastErrorLog (mgr w') =
               (if error_log_due env w then to_uint (millis env)
                else lastErrorLog (mgr w))).
Proof.
  intros env w. split.
  - intros Hinit. open_world w. subst w_initialized. reflexivity.
  - intros Hinit ready w1 Hready.
    destruct (gate_kept_isNetworkReady env w ready w1 Hready)
      as (I & Mx & L & evs1 & T1 & A1).
    unfold OTAManager.handleUpdates.
    unfold bind at 1, gets at 1. rewrite Hinit. cbn [negb].
    unfold bind at 1. rewrite Hready.
    rewrite Hinit in I.
    destruct ready.
    + destruct (service_locked_run env w1 I) as (w' & evs & R & T & F & C & G).
      exists w', evs. rewrite <- Mx. auto.
    + destruct (log_not_connected_run env w1) as (w' & R & T & Le).
      assert (Hdue : error_log_due env w1 = error_log_due env w)
        by (unfold error_log_due; rewrite L; reflexivity).
      rewrite Hdue, L in *.
      eexists; eexists. split; [exact R|]. split; [exact T|].
      split; [|split; [reflexivity | exact Le]].
      rewrite (new_events_app w w' (evs1 ++ EvMillis ::
                 (if error_log_due env w then [not_connected_error] else []))).
      * apply filter_none. apply Forall_app. split; [exact A1|].
        destruct (error_log_due env w); repeat constructor.
      * rewrite T, T1, app_assoc. reflexivity.
Qed.

(** ** The progress handlers *)

Lemma to_int_small z : - 2 ^ 31 <= z < 2 ^ 31 -> to_int z = z.
Proof.
  intros Hz. unfold to_int, UINT_MAX1. cbv zeta.
  destruct (Z.ltb_spec (z mod 2 ^ 32) (2 ^ 31)) as [Hlt|Hge].
  - destruct (Z_lt_le_dec z 0) as [Hneg|Hpos].
    + rewrite <- (Z.mod_add z 1 (2 ^ 32)) in Hlt by lia.
      rewrite Z.mod_small in Hlt by lia. lia.
    + apply Z.mod_small. lia.
  - destruct (Z_lt_le_dec z 0) as [Hneg|Hpos].
    + rewrite <- (Z.mod_add z 1 (2 ^ 32)) by lia.
      rewrite Z.mod_small by lia. lia.
    + rewrite Z.mod_small in Hge by lia. lia.
Qed.

(** For a transfer that has not passed its total, the percentage is
    between 0 and 100 even when [progress * 100] wraps around. *)
Lemma percent_of_bounds progress total :
  0 <= progress <= total -> 0 < total < 2 ^ 32 ->
  exists pct, OTAManager.percent_of progress total = Some pct /\
              0 <= pct <= 100.
Proof.
  intros Hp Ht. unfold OTAManager.percent_of.
  destruct (Z.eqb_spec total 0) as [E|_]; [lia|].
  eexists. split; [reflexivity|].
  unfold to_uint, UINT_MAX1.
  assert (Hv : 0 <= (progress * 100) mod 2 ^ 32 < 2 ^ 32)
    by (apply Z.mod_pos_bound; lia).
  assert (Hq : 0 <= (progress * 100) mod 2 ^ 32 / total <= 100).
  { split; [apply Z.div_pos; lia|].
    apply Z.lt_succ_r. apply Z.div_lt_upper_bound; [lia|].
    destruct (Z_lt_le_dec (progress * 100) (2 ^ 32)) as [Hs|Hl].
    - rewrite Z.mod_small by lia. lia.
    - lia. }
  rewrite to_int_small by lia. exact Hq.
Qed.

Lemma onOTAProgress_run progress total pct w :
  OTAManager.percent_of progress total = Some pct ->
  exists w',
    OTATask.onOTAProgress progress total w = Some (tt, w') /\
    trace w' = trace w ++
      (if decile_due pct (lastPercent (task w)) then [task_progress_log]
       else []) ++ [EvWdtReset] /\
    lastPercent (task w') =
      (if decile_due pct (lastPercent (task w))
       then int_sub pct (Z.rem pct 10) else lastPercent (task w)).
Proof.
  intros Hpct. unfold OTATask.onOTAProgress, decile_due. rewrite Hpct.
  open_world w. run. split_ifs.
  all: eexists; split; [reflexivity|].
  all: split; [norm_trace; reflexivity | reflexivity].
Qed.

Lemma handleOTAProgress_run progress total pct w :
  OTAManager.percent_of progress total = Some pct ->
  exists w',
    OTAManager.handleOTAProgress progress total w = Some (tt, w') /\
    trace w' = trace w ++
      (if step_due pct (lastPrintedStep (mgr w)) then [default_progress_log]
       else []) ++ [default_progress_detail].
Proof.
  intros Hpct. unfold OTAManager.handleOTAProgress, step_due. rewrite Hpct.
  open_world w. run. split_ifs.
  all: eexists; split; [reflexivity|].
  all: norm_trace; reflexivity.
Qed.

(** C7 as stated covers the progress callback that [initialize] installs
    ([OTAManager::handleOTAProgress]); that handler does not feed the
    watchdog. *)
Lemma default_progress_handler_does_not_feed_watchdog :
  ~ (forall w',
       OTAManager.handleOTAProgress 50 100 boot = Some (tt, w') ->
       In EvWdtReset (new_events boot w')).
Proof.
  intros H.
  pose (w' := after (OTAManager.handleOTAProgress 50 100) boot).
  assert (R : OTAManager.handleOTAProgress 50 100 boot = Some (tt, w'))
    by (vm_compute; reflexivity).
  specialize (H w' R). vm_compute in H.
  repeat (destruct H as [H|H]; [discriminate H|]). exact H.
Qed.

(** C7 (amended). For a transfer with [0 < total] that has not passed its
    total, every invocation of the task's progress callback
    [OTATask::onOTAProgress] ends by feeding the watchdog, and it logs
    only when the percentage is at least 10 above the last logged multiple
    of ten or equals 100; so the same percentage below 100 reported again
    is not logged again.  The progress handler that [initialize] installs
    by default, [OTAManager::handleOTAProgress], never feeds the watchdog
    and prints its progress line when the percentage is at least 5 above
    the last printed multiple of five. *)
Theorem onOTAProgress_feeds_watchdog_and_throttles :
  forall progress total w,
    0 <= progress <= total -> 0 < total < 2 ^ 32 ->
    exists pct w' wd,
      OTAManager.percent_of progress total = Some pct /\
      0 <= pct <= 100 /\
      OTATask.onOTAProgress progress total w = Some (tt, w') /\
      trace w' = trace w ++
        (if decile_due pct (lastPercent (task w)) then [task_progress_log]
         else []) ++ [EvWdtReset] /\
      (pct <> 100 ->
         exists w'', OTATask.onOTAProgress progress total w' = Some (tt, w'') /\
                     trace w'' = trace w' ++ [EvWdtReset]) /\
      OTAManager.handleOTAProgress progress total w = Some (tt, wd) /\
      trace wd = trace w ++
        (if step_due pct (lastPrintedStep (mgr w)) then [default_progress_log]
         else []) ++ [default_progress_detail].
Proof.
  intros progress total w Hp Ht.
  destruct (percent_of_bounds progress total Hp Ht) as (pct & Hpct & Hb).
  destruct (onOTAProgress_run progress total pct w Hpct) as (w' & R & T & L).
  destruct (handleOTAProgress_run progress total pct w Hpct) as (wd & Rd & Td).
  exists pct, w', wd. repeat (split; [assumption|]).
  split; [|split; assumption].
  intros Hne.
  destruct (onOTAProgress_run progress total pct w' Hpct) as (w'' & R' & T' & _).
  exists w''. split; [exact R'|]. rewrite T'.
  assert (Hdue : decile_due pct (lastPercent (task w')) = false).
  { rewrite L. destruct (decile_due pct (lastPercent (task w))) eqn:D;
      [|exact D].
    unfold decile_due, int_sub, int_add.
    assert (Hrem : 0 <= Z.rem pct 10 < 10)
      by (apply Z.rem_bound_pos; lia).
    rewrite (to_int_small (pct - Z.rem pct 10)) by lia.
    rewrite to_int_small by lia.
    apply orb_false_iff. split.
    - rewrite Z.geb_leb. apply Z.leb_gt. lia.
    - apply Z.eqb_neq. exact Hne. }
  rewrite Hdue. reflexivity.
Qed.

Lemma onOTAProgress_feeds_watchdog_and_throttles_witness :
  exists pct w' wd,
    OTAManager.percent_of 50 200 = Some pct /\
    0 <= pct <= 100 /\
    OTATask.onOTAProgress 50 200 boot = Some (tt, w') /\
    trace w' = trace boot ++
      (if decile_due pct (lastPercent (task boot)) then [task_progress_log]
       else []) ++ [EvWdtReset] /\
    (pct <> 100 ->
       exists w'', OTATask.onOTAProgress 50 200 w' = Some (tt, w'') /\
                   trace w'' = trace w' ++ [EvWdtReset]) /\
    OTAManager.handleOTAProgress 50 200 boot = Some (tt, wd) /\
    trace wd = trace boot ++
      (if step_due pct (lastPrintedStep (mgr boot)) then [default_progress_log]
       else []) ++ [default_progress_detail].
Proof.
  apply (onOTAProgress_feeds_watchdog_and_throttles 50 200 boot); lia.
Defined.

(** C9. Both progress handlers divide by [total] without looking at it:
    [handleOTAProgress] and [onOTAProgress] have a result exactly when
    [total] is not zero, and then the percentage is
    [(progress * 100) / total] computed in [unsigned int]; with [total]
    zero the division by zero is executed and the handler has no result. *)
Theorem progress_handlers_divide_by_total :
  forall progress total w,
    (OTAManager.handleOTAProgress progress total w = None <-> total = 0) /\
    (OTATask.onOTAProgress progress total w = None <-> total = 0) /\
    (OTAManager.percent_of progress total = None <-> total = 0) /\
    (total <> 0 ->
       OTAManager.percent_of progress total
       = Some (to_int (to_uint (progress * 100) / total))).
Proof.
  intros progress total w.
  assert (Hnone : total = 0 -> OTAManager.percent_of progress total = None).
  { intros ->. reflexivity. }
  assert (Hsome : total <> 0 ->
            OTAManager.percent_of progress total
            = Some (to_int (to_uint (progress * 100) / total))).
  { intros Hne. unfold OTAManager.percent_of.
    destruct (Z.eqb_spec total 0); [contradiction|reflexivity]. }
  repeat split; try exact Hsome.
  - intros Hrun. destruct (Z.eq_dec total 0) as [E|Hne]; [exact E|].
    destruct (handleOTAProgress_run progress total _ w (Hsome Hne))
      as (w' & R & _). congruence.
  - intros E. unfold OTAManager.handleOTAProgress.
    rewrite (Hnone E). reflexivity.
  - intros Hrun. destruct (Z.eq_dec total 0) as [E|Hne]; [exact E|].
    destruct (onOTAProgress_run progress total _ w (Hsome Hne))
      as (w' & R & _). congruence.
  - intros E. unfold OTATask.onOTAProgress. rewrite (Hnone E). reflexivity.
  - intros Hrun. destruct (Z.eq_dec total 0) as [E|Hne]; [exact E|].
    rewrite (Hsome Hne) in Hrun. discriminate Hrun.
  - exact Hnone.
Qed.

Lemma progress_handlers_divide_by_total_witness :
  (OTAManager.handleOTAProgress 512 0 boot = None <-> 0 = 0) /\
  (OTATask.onOTAProgress 512 0 boot = None <-> 0 = 0) /\
  (OTAManager.percent_of 512 0 = None <-> 0 = 0) /\
  (0 <> 0 ->
     OTAManager.percent_of 512 0 = Some (to_int (to_uint (512 * 100) / 0))).
Proof.
  exact (progress_handlers_divide_by_total 512 0 boot).
Defined.

(** ** The mutex of [OTAManager] *)

Lemma option_eq_dec_handle (a b : option Handle) : {a = b} + {a <> b}.
Proof. decide equality. apply Nat.eq_dec. Qed.

Lemma lock_kept_refl w : lock_kept w w.
Proof. split; reflexivity. Qed.

Lemma lock_kept_trans a b c : lock_kept a b -> lock_kept b c -> lock_kept a c.
Proof. intros [M1 I1] [M2 I2]. split; congruence. Qed.

Lemma lock_rel_refl w : lock_rel w w.
Proof. split; [intros H; contradiction H; reflexivity | auto]. Qed.

Lemma lock_rel_trans a b c : lock_rel a b -> lock_rel b c -> lock_rel a c.
Proof.
  intros [M1 R1] [M2 R2]. split; [|auto].
  intros Hne.
  destruct (mutex (mgr a)) as [h|] eqn:Ea; [|reflexivity].
  destruct (mutex (mgr b)) as [h'|] eqn:Eb.
  - destruct (option_eq_dec_handle (Some h') (Some h)) as [E|N];
      [|exact (M1 N)].
    rewrite <- E in Hne. discriminate (M2 Hne).
  - apply M1. discriminate.
Qed.

Ltac lock_kept_prim := intros; split; reflexivity.

Ltac lock_rel_prim :=
  intros; split; [intros H; contradiction H; reflexivity | intros H; exact H].

Lemma lock_kept_step env op :
  calls_initialize op = false -> respects lock_kept (step env op).
Proof.
  destruct op; cbn [calls_initialize step]; intros H; try discriminate H;
    frame lock_kept_refl lock_kept_trans lock_kept_prim.
Qed.

Lemma lock_kept_rel w w' : lock_kept w w' -> lock_rel w w'.
Proof.
  intros [M I]. unfold lock_rel, lock_ready. rewrite M, I.
  split; [intros H; contradiction H; reflexivity | auto].
Qed.

Ltac split_ifs_in H :=
  repeat match type of H with
         | context [if ?b then _ else _] =>
             lazymatch type of b with bool => destruct b eqn:?; run_in H end
         end.

Lemma lock_rel_initialize env hostname password port cb :
  respects lock_rel (OTAManager.initialize env hostname password port cb).
Proof.
  intros w a w' Hrun. unfold lock_rel, lock_ready.
  open_world w. open_env env.
  destruct hostname as [[|c s]|]; destruct password as [[|c' s']|];
    destruct w_mutex as [h|]; run_in Hrun; split_ifs_in Hrun;
    inversion Hrun; subst; cbn;
    (split; [intros H; first [reflexivity | contradiction H; reflexivity]
            | intros H1 H2; first [discriminate | apply H1; exact H2]]).
Qed.

#[local] Hint Resolve lock_rel_initialize : frames.

Lemma lock_rel_step env op : respects lock_rel (step env op).
Proof.
  destruct (calls_initialize op) eqn:C.
  - destruct op; cbn in C; try discriminate C; cbn [step].
    + apply lock_rel_initialize.
    + frame lock_rel_refl lock_rel_trans lock_rel_prim.
  - intros w a w' H. apply lock_kept_rel.
    exact (lock_kept_step env op C w a w' H).
Qed.

Lemma reachable_lock_ready w : reachable w -> lock_ready w.
Proof.
  induction 1 as [|w env op w' _ IH Hstep].
  - intros H. discriminate H.
  - unfold exec in Hstep.
    destruct (step env op w) as [[a w1]|] eqn:E; [|discriminate].
    inversion Hstep; subst w1.
    exact (proj2 (lock_rel_step env op w a w' E) IH).
Qed.


(** ** Instances on concrete worlds *)

Lemma handleUpdates_gating_witness :
  OTAManager.handleUpdates sample_env boot = Some (tt, boot) /\
  exists w' evs,
    OTAManager.handleUpdates sample_env configured = Some (tt, w') /\
    trace w' =
      trace (after (OTAManager.isNetworkReady sample_env) configured) ++ evs /\
    firstn 2 evs = [EvTake (mutex (mgr configured)); EvOtaHandle] /\
    filter is_ota_call evs = [EvOtaHandle] /\
    last evs EvOtaHandle = EvGive (mutex (mgr configured)).
Proof.
  split.
  - apply (handleUpdates_gating sample_env boot). reflexivity.
  - apply (proj2 (handleUpdates_gating sample_env configured)
             (eq_refl true) true
             (after (OTAManager.isNetworkReady sample_env) configured)).
    vm_compute. reflexivity.
Defined.

Lemma isNetworkReady_predicate_overrides_probe_witness :
  (exists w' evs,
     OTAManager.isNetworkReady sample_env checked
       = Some (net_check sample_env "check"%string, w') /\
     trace w' = trace checked ++ evs /\
     In (EvNetCheck "check"%string (net_check sample_env "check"%string)) evs /\
     existsb is_probe evs = false) /\
  (exists w' evs,
     OTAManager.isNetworkReady sample_env configured
       = Some (eth_ready sample_env || wifi_ready sample_env, w') /\
     trace w' = trace configured ++ evs /\
     existsb is_net_check evs = false /\
     (ESP32 (build sample_env) && ETH_defined (build sample_env) = true ->
        find is_probe evs = Some EvEthLinkSpeed) /\
     (existsb is_wifi_probe evs = true -> eth_ready sample_env = false)).
Proof.
  split.
  - apply (isNetworkReady_predicate_overrides_probe sample_env checked).
    vm_compute. reflexivity.
  - apply (isNetworkReady_predicate_overrides_probe sample_env configured).
    vm_compute. reflexivity.
Defined.


(** * Further properties of the code *)

(** ** [initialized] and what it guarantees *)

Lemma stays_initialized_refl w : stays_initialized w w.
Proof. intros H. exact H. Qed.

Lemma stays_initialized_trans a b c :
  stays_initialized a b -> stays_initialized b c -> stays_initialized a c.
Proof. unfold stays_initialized. auto. Qed.

Lemma stays_initialized_initialize env hostname password port cb :
  respects stays_initialized
           (OTAManager.initialize env hostname password port cb).
Proof.
  intros w a w' Hrun. unfold stays_initialized.
  open_world w. open_env env.
  destruct hostname as [[|c s]|]; destruct password as [[|c' s']|];
    destruct w_mutex as [h|]; run_in Hrun; split_ifs_in Hrun;
    inversion Hrun; subst; cbn; intros H; first [exact H | reflexivity].
Qed.

#[local] Hint Resolve stays_initialized_initialize : frames.

Lemma stays_initialized_step env op :
  respects stays_initialized (step env op).
Proof.
  destruct (calls_initialize op) eqn:C.
  - destruct op; cbn in C; try discriminate C; cbn [step].
    + apply stays_initialized_initialize.
    + frame stays_initialized_refl stays_initialized_trans
            ltac:(intros; intros H; exact H).
  - intros w a w' E. destruct (lock_kept_step env op C w a w' E) as [_ I].
    unfold stays_initialized. rewrite I. auto.
Qed.

(** X1. No operation of the program resets [initialized]: across every
    step, if the flag was true before it is true after.  (There is no
    de-initialisation; a rejected [initialize] on an initialised manager
    leaves it initialised.) *)
Theorem initialized_is_never_reset :
  forall env op w w',
    exec (step env op) w = Some w' ->
    initialized (mgr w) = true ->
    initialized (mgr w') = true.
Proof.
  intros env op w w' Hstep.
  unfold exec in Hstep.
  destruct (step env op w) as [[a w1]|] eqn:E; [|discriminate].
  inversion Hstep; subst w1.
  exact (stays_initialized_step env op w a w' E).
Qed.

Lemma initialized_is_never_reset_witness :
  initialized (mgr (after (step sample_env (Initialize None None 0 None))
                          configured)) = true.
Proof.
  apply (initialized_is_never_reset sample_env (Initialize None None 0 None)
           configured).
  - vm_compute. reflexivity.
  - vm_compute. reflexivity.
Defined.

Lemma keeps_configured_refl w : keeps_configured w w.
Proof. intros H. exact H. Qed.

Lemma keeps_configured_trans a b c :
  keeps_configured a b -> keeps_configured b c -> keeps_configured a c.
Proof. unfold keeps_configured. auto. Qed.

Lemma keeps_configured_on k f :
  respects keeps_configured (OTAManager.ArduinoOTA_on k f).
Proof.
  intros w a w' Hrun. open_world w.
  destruct k; run_in Hrun; inversion Hrun; subst;
    intros H Hi; destruct (H Hi) as (Hm & Hb & Hs);
    (split; [exact Hm|]); (split; [exact Hb|]);
    intros k'; specialize (Hs k');
    destruct k'; cbn in *; first [exact Hs | discriminate].
Qed.

Lemma keeps_configured_initialize env hostname password port cb :
  respects keeps_configured
           (OTAManager.initialize env hostname password port cb).
Proof.
  intros w a w' Hrun. unfold keeps_configured, fully_configured.
  open_world w. open_env env.
  destruct hostname as [[|c s]|]; destruct password as [[|c' s']|];
    destruct w_mutex as [h|]; run_in Hrun; split_ifs_in Hrun;
    inversion Hrun; subst; cbn; intros H Hi;
    first
      [ exact (H Hi)
      | destruct (H Hi) as (Hm & _); contradiction Hm; reflexivity
      | split; [discriminate|]; split; [reflexivity|];
        intros k; destruct k; discriminate ].
Qed.

#[local] Hint Resolve keeps_configured_on keeps_configured_initialize : frames.

Lemma keeps_configured_step env op : respects keeps_configured (step env op).
Proof.
  destruct op; cbn [step];
    frame keeps_configured_refl keeps_configured_trans
          ltac:(intros; intros H; exact H).
Qed.

(** X2. In every world the program can reach, [initialized] true means
    the subsystem is complete: the mutex exists, [ArduinoOTA.begin()] has
    been called, and each of the four callback slots holds a callback (the
    defaults of [initialize] or one installed by a setter; no operation
    empties a slot). *)
Theorem initialized_world_is_fully_configured :
  forall w,
    reachable w ->
    initialized (mgr w) = true ->
    mutex (mgr w) <> None /\
    _begun (ota w) = true /\
    forall k, slot k (ota w) <> None.
Proof.
  intros w Hreach. change (fully_configured w).
  induction Hreach as [|w env op w' _ IH Hstep].
  - intros H. discriminate H.
  - unfold exec in Hstep.
    destruct (step env op w) as [[a w1]|] eqn:E; [|discriminate].
    inversion Hstep; subst w1.
    exact (keeps_configured_step env op w a w' E IH).
Qed.

Lemma initialized_world_is_fully_configured_witness :
  mutex (mgr configured) <> None /\
  _begun (ota configured) = true /\
  forall k, slot k (ota configured) <> None.
Proof.
  apply (initialized_world_is_fully_configured configured).
  - apply (reach_step boot sample_env
             (Initialize (Some "dev1"%string) None 3232 None) configured).
    + exact reach_boot.
    + vm_compute. reflexivity.
  - vm_compute. reflexivity.
Defined.

(** ** The warning of the default probe is printed once *)

Lemma keeps_warned_refl w : keeps_warned w w.
Proof. intros H. exact H. Qed.

Lemma keeps_warned_trans a b c :
  keeps_warned a b -> keeps_warned b c -> keeps_warned a c.
Proof. unfold keeps_warned. auto. Qed.

Lemma warned_inv_emit e m o t s n tr :
  is_no_network_warning e = false ->
  warned_inv (mkWorld m o t s n tr) ->
  warned_inv (mkWorld m o t s n (tr ++ [e])).
Proof.
  unfold warned_inv, warnings. cbn [trace mgr]. intros He H.
  rewrite filter_app. cbn [filter]. rewrite He, app_nil_r. exact H.
Qed.

Lemma keeps_warned_no_connection :
  respects keeps_warned OTAManager.no_connection.
Proof.
  intros w a w' Hrun. open_world w.
  destruct w_warned; run_in Hrun; inversion Hrun; subst.
  - intros H. exact H.
  - unfold keeps_warned, warned_inv, warnings. cbn [trace mgr warnedOnce].
    intros [H0 _]. specialize (H0 eq_refl).
    rewrite filter_app, length_app, H0.
    split; [discriminate | vm_compute; apply le_n].
Qed.

#[local] Hint Resolve keeps_warned_no_connection : frames.

Ltac warned_prim :=
  intros w0 H0; destruct w0;
  first [ exact H0
        | apply warned_inv_emit; [reflexivity | exact H0] ].

Lemma keeps_warned_step env op : respects keeps_warned (step env op).
Proof.
  destruct op; cbn [step];
    frame keeps_warned_refl keeps_warned_trans warned_prim.
Qed.

(** X3. The warning "No network check callback provided and no network
    detected" is logged at most once in the life of the program: in every
    reachable world the trace contains it at most once, and not at all
    while [warnedOnce] is still false. *)
Theorem no_network_warning_at_most_once :
  forall w,
    reachable w ->
    (warnings w <= 1)%nat /\
    (warnedOnce (mgr w) = false -> warnings w = 0%nat).
Proof.
  intros w Hreach.
  assert (Hinv : warned_inv w).
  { induction Hreach as [|w env op w' _ IH Hstep].
    - split; [reflexivity | apply le_S, le_n].
    - unfold exec in Hstep.
      destruct (step env op w) as [[a w1]|] eqn:E; [|discriminate].
      inversion Hstep; subst w1.
      exact (keeps_warned_step env op w a w' E IH). }
  destruct Hinv as [H0 H1]. split; assumption.
Qed.

Lemma reachable_configured : reachable configured.
Proof.
  apply (reach_step boot sample_env
           (Initialize (Some "dev1"%string) None 3232 None) configured).
  - exact reach_boot.
  - vm_compute. reflexivity.
Qed.

Lemma reachable_searched : reachable searched.
Proof.
  apply (reach_step configured (offline_env 12000) HandleUpdates searched).
  - exact reachable_configured.
  - vm_compute. reflexivity.
Qed.

Lemma no_network_warning_at_most_once_witness :
  (warnings searched <= 1)%nat /\
  (warnedOnce (mgr searched) = false -> warnings searched = 0%nat).
Proof.
  apply (no_network_warning_at_most_once searched).
  exact reachable_searched.
Defined.

(** ** [initialize] when the mutex cannot be created *)

Lemma initialize_takes_next_handle env hostname password port cb w w' :
  OTAManager.initialize env hostname password port cb w = Some (tt, w') ->
  mutex (mgr w) = None -> alloc_ok env (next_handle w) = true ->
  mutex (mgr w') = Some (next_handle w).
Proof.
  intros Hrun Hm Ha.
  open_world w. open_env env. subst w_mutex.
  destruct hostname as [[|c s]|]; destruct password as [[|c' s']|];
    run_in Hrun; rewrite Ha in Hrun; run_in Hrun; split_ifs_in Hrun;
    inversion Hrun; reflexivity.
Qed.

(** X4. When no mutex exists and the kernel cannot create one,
    [initialize] gives up before taking any lock: whatever the arguments,
    it only records the failed creation and logs one error, and leaves
    every static and the whole configuration of the transfer library as
    they were.  The attempt is repeated by the next call: a later
    [initialize] with an accepted configuration, once the kernel has
    memory, initialises the manager. *)
Theorem initialize_without_mutex_gives_up :
  forall env hostname password port cb w,
    mutex (mgr w) = None ->
    alloc_ok env (next_handle w) = false ->
    exists w',
      OTAManager.initialize env hostname password port cb w = Some (tt, w') /\
      mgr w' = mgr w /\ ota w' = ota w /\ task w' = task w /\
      next_handle w' = next_handle w /\
      trace w' = trace w ++ mutex_creation_failed /\
      forall env' hostname' password' port' cb',
        accepted hostname' port' ->
        alloc_ok env' (next_handle w') = true ->
        exists w'',
          OTAManager.initialize env' hostname' password' port' cb' w'
            = Some (tt, w'') /\
          initialized (mgr w'') = true /\
          mutex (mgr w'') = Some (next_handle w).
Proof.
  intros env hostname password port cb w Hm Ha.
  assert (Hrun : exists w',
      OTAManager.initialize env hostname password port cb w = Some (tt, w') /\
      mgr w' = mgr w /\ ota w' = ota w /\ task w' = task w /\
      next_handle w' = next_handle w /\
      trace w' = trace w ++ mutex_creation_failed).
  { open_world w. open_env env. subst w_mutex. run. rewrite Ha. run.
    eexists. repeat split. norm_trace. reflexivity. }
  destruct Hrun as (w' & R & M & O & T & N & Tr).
  exists w'. repeat (split; [assumption|]).
  intros env' hostname' password' port' cb' Hacc Ha'.
  destruct (initialize_accepted env' hostname' password' port' cb' w' Hacc
              (or_intror Ha')) as (w'' & R' & I' & _).
  exists w''. split; [exact R'|]. split; [exact I'|].
  rewrite <- N. apply (initialize_takes_next_handle _ _ _ _ _ _ _ R');
    [rewrite M; exact Hm | exact Ha'].
Qed.

Lemma initialize_without_mutex_gives_up_witness :
  exists w',
    OTAManager.initialize (offline_env 0) (Some "dev1"%string) None 3232 None
                          boot = Some (tt, w') /\
    mgr w' = mgr boot /\ ota w' = ota boot /\ task w' = task boot /\
    next_handle w' = next_handle boot /\
    trace w' = trace boot ++ mutex_creation_failed /\
    forall env' hostname' password' port' cb',
      accepted hostname' port' ->
      alloc_ok env' (next_handle w') = true ->
      exists w'',
        OTAManager.initialize env' hostname' password' port' cb' w'
          = Some (tt, w'') /\
        initialized (mgr w'') = true /\
        mutex (mgr w'') = Some (next_handle boot).
Proof.
  apply (initialize_without_mutex_gives_up (offline_env 0)
           (Some "dev1"%string) None 3232 None boot); reflexivity.
Defined.

(** ** The throttle of the error line *)

Lemma elapsed_since now last d :
  0 <= d < 2 ^ 32 ->
  to_uint now = to_uint (last + d) ->
  to_uint (to_uint now - last) = d.
Proof.
  intros Hd Hnow. rewrite Hnow. unfold to_uint, UINT_MAX1.
  rewrite Zminus_mod_idemp_l.
  replace (last + d - last) with d by lia.
  apply Z.mod_small. exact Hd.
Qed.

Lemma handleUpdates_not_ready_run env w w1 :
  initialized (mgr w) = true ->
  OTAManager.isNetworkReady env w = Some (false, w1) ->
  exists w',
    OTAManager.handleUpdates env w = Some (tt, w') /\
    trace w' = trace w1 ++
      EvMillis :: (if error_log_due env w then [not_connected_error] else []) /\
    lastErrorLog (mgr w') =
      (if error_log_due env w then to_uint (millis env)
       else lastErrorLog (mgr w)).
Proof.
  intros Hinit Hready.
  destruct (gate_kept_isNetworkReady env w false w1 Hready)
    as (_ & _ & L & _).
  unfold OTAManager.handleUpdates.
  unfold bind at 1, gets at 1. rewrite Hinit. cbn [negb].
  unfold bind at 1. rewrite Hready.
  destruct (log_not_connected_run env w1) as (w' & R & T & Le).
  assert (Hdue : error_log_due env w1 = error_log_due env w)
    by (unfold error_log_due; rewrite L; reflexivity).
  rewrite Hdue, L in *.
  exists w'. auto.
Qed.

(** X5. With the manager initialised and the network not ready,
    [handleUpdates] logs "Network not connected, skipping OTA check"
    exactly when at least 10000 ms have passed since the time it last
    logged it, and then remembers the current time; otherwise it logs
    nothing and keeps the remembered time.  The elapsed time is taken
    modulo 2^32, so the throttle keeps its period when [millis()] wraps
    around. *)
Theorem error_line_throttle_survives_wraparound :
  forall env w w1 d,
    initialized (mgr w) = true ->
    OTAManager.isNetworkReady env w = Some (false, w1) ->
    0 <= d < 2 ^ 32 ->
    to_uint (millis env) = to_uint (lastErrorLog (mgr w) + d) ->
    exists w',
      OTAManager.handleUpdates env w = Some (tt, w') /\
      trace w' = trace w1 ++
        EvMillis :: (if 10000 <=? d then [not_connected_error] else []) /\
      lastErrorLog (mgr w') =
        (if 10000 <=? d then to_uint (millis env) else lastErrorLog (mgr w)).
Proof.
  intros env w w1 d Hinit Hready Hd Hnow.
  destruct (handleUpdates_not_ready_run env w w1 Hinit Hready)
    as (w' & R & T & L).
  assert (Hdue : error_log_due env w = (10000 <=? d)).
  { unfold error_log_due.
    rewrite (elapsed_since _ _ d Hd Hnow).
    rewrite Z.geb_leb. reflexivity. }
  rewrite Hdue in T, L. exists w'. auto.
Qed.

Lemma error_line_throttle_survives_wraparound_witness :
  exists w',
    OTAManager.handleUpdates (offline_env 4000) searched = Some (tt, w') /\
    trace w' =
      trace (after (OTAManager.isNetworkReady (offline_env 4000)) searched) ++
      EvMillis ::
        (if 10000 <=? 4294959296 then [not_connected_error] else []) /\
    lastErrorLog (mgr w') =
      (if 10000 <=? 4294959296 then to_uint (millis (offline_env 4000))
       else lastErrorLog (mgr searched)).
Proof.
  apply (error_line_throttle_survives_wraparound (offline_env 4000) searched
           (after (OTAManager.isNetworkReady (offline_env 4000)) searched)
           4294959296).
  - vm_compute. reflexivity.
  - vm_compute. reflexivity.
  - lia.
  - vm_compute. reflexivity.
Defined.

(** ** How many progress lines a transfer can log *)

Lemma count_app p a b : count p (a ++ b) = count p a + count p b.
Proof. unfold count. rewrite filter_app, length_app. lia. Qed.

Lemma floor_step pct last m :
  0 < m -> 0 <= pct -> last mod m = 0 -> last + m <= pct ->
  last + m <= pct - Z.rem pct m /\ (pct - Z.rem pct m) mod m = 0 /\
  pct - Z.rem pct m <= pct.
Proof.
  intros Hm Hpct Hlast Hle.
  rewrite Z.rem_mod_nonneg by lia.
  assert (Hl := Z.div_mod last m ltac:(lia)). rewrite Hlast in Hl.
  assert (Hp := Z.div_mod pct m ltac:(lia)).
  assert (Hr := Z.mod_pos_bound pct m Hm).
  replace (pct - pct mod m) with (pct / m * m) by lia.
  split; [|split].
  - assert (last / m + 1 <= pct / m) by nia. nia.
  - apply Z_mod_mult.
  - lia.
Qed.

(** Evaluate the counts over explicit event lists in the goal. *)
Ltac compute_counts :=
  repeat match goal with
         | |- context [count ?p ?l] =>
             let c := eval vm_compute in (count p l) in
             change (count p l) with c
         end.

Lemma handleOTAProgress_effect progress total pct w :
  OTAManager.percent_of progress total = Some pct ->
  exists w',
    OTAManager.handleOTAProgress progress total w = Some (tt, w') /\
    trace w' = trace w ++
      (if step_due pct (lastPrintedStep (mgr w)) then [default_progress_log]
       else []) ++ [default_progress_detail] /\
    lastPrintedStep (mgr w') =
      (if step_due pct (lastPrintedStep (mgr w))
       then int_sub pct (Z.rem pct 5) else lastPrintedStep (mgr w)).
Proof.
  intros Hpct. unfold OTAManager.handleOTAProgress, step_due. rewrite Hpct.
  open_world w. run. split_ifs.
  all: eexists; split; [reflexivity|].
  all: split; [norm_trace; reflexivity | reflexivity].
Qed.

Lemma handleOTAProgress_step progress total w :
  valid_report (progress, total) ->
  lastPrintedStep (mgr w) mod 5 = 0 ->
  -5 <= lastPrintedStep (mgr w) <= 100 ->
  exists w' evs,
    OTAManager.handleOTAProgress progress total w = Some (tt, w') /\
    trace w' = trace w ++ evs /\
    lastPrintedStep (mgr w') mod 5 = 0 /\
    lastPrintedStep (mgr w) <= lastPrintedStep (mgr w') <= 100 /\
    5 * count is_info_line evs
      <= lastPrintedStep (mgr w') - lastPrintedStep (mgr w) /\
    count is_wdt_reset evs = 0.
Proof.
  intros [Hp Ht] Hmod Hb. cbn [fst snd] in *.
  destruct (percent_of_bounds progress total Hp Ht) as (pct & Hpct & Hpb).
  destruct (handleOTAProgress_effect progress total pct w Hpct)
    as (w' & R & T & L).
  exists w'. eexists. split; [exact R|]. split; [exact T|].
  rewrite L. unfold step_due in *.
  assert (Hadd : int_add (lastPrintedStep (mgr w)) 5
                 = lastPrintedStep (mgr w) + 5)
    by (apply to_int_small; lia).
  rewrite Hadd.
  destruct (pct >=? lastPrintedStep (mgr w) + 5) eqn:Edue.
  - rewrite Z.geb_leb in Edue. apply Z.leb_le in Edue.
    destruct (floor_step pct (lastPrintedStep (mgr w)) 5
                ltac:(lia) ltac:(lia) Hmod Edue) as (F1 & F2 & F3).
    unfold int_sub. rewrite to_int_small by lia.
    compute_counts. repeat split; try assumption; lia.
  - compute_counts. repeat split; try assumption; lia.
Qed.

(** X6. Over any sequence of reports of a transfer (each with
    [0 < total] and [progress <= total]), the default progress handler
    [handleOTAProgress] never fails, never feeds the watchdog, and each
    "Progress" line it logs raises [lastPrintedStep] by at least 5 while
    [lastPrintedStep] stays a multiple of five not above 100.  Since that
    static is never reset, at most 21 such lines are logged after boot,
    however many reports or attempts there are. *)
Theorem default_progress_lines_are_bounded :
  forall rs w,
    Forall valid_report rs ->
    lastPrintedStep (mgr w) mod 5 = 0 ->
    -5 <= lastPrintedStep (mgr w) <= 100 ->
    exists w' evs,
      reports OTAManager.handleOTAProgress rs w = Some (tt, w') /\
      trace w' = trace w ++ evs /\
      lastPrintedStep (mgr w') mod 5 = 0 /\
      lastPrintedStep (mgr w) <= lastPrintedStep (mgr w') <= 100 /\
      5 * count is_info_line evs
        <= lastPrintedStep (mgr w') - lastPrintedStep (mgr w) /\
      count is_info_line evs <= 21 /\
      count is_wdt_reset evs = 0.
Proof.
  induction rs as [|[p t] rs IH]; intros w Hvalid Hmod Hb.
  - exists w, []. rewrite app_nil_r. compute_counts.
    repeat split; try assumption; lia.
  - inversion Hvalid as [|r rs' Hr Hrs]; subst.
    destruct (handleOTAProgress_step p t w Hr Hmod Hb)
      as (w1 & e1 & R1 & T1 & M1 & B1 & C1 & W1).
    destruct (IH w1 Hrs M1 ltac:(lia))
      as (w2 & e2 & R2 & T2 & M2 & B2 & C2 & _ & W2).
    exists w2, (e1 ++ e2).
    split; [cbn [reports]; unfold bind; rewrite R1; exact R2|].
    split; [rewrite T2, T1, app_assoc; reflexivity|].
    rewrite !count_app.
    repeat split; try assumption; lia.
Qed.

Lemma default_progress_lines_are_bounded_witness :
  exists w' evs,
    reports OTAManager.handleOTAProgress [(0, 1000); (500, 1000); (1000, 1000)]
            boot = Some (tt, w') /\
    trace w' = trace boot ++ evs /\
    lastPrintedStep (mgr w') mod 5 = 0 /\
    lastPrintedStep (mgr boot) <= lastPrintedStep (mgr w') <= 100 /\
    5 * count is_info_line evs
      <= lastPrintedStep (mgr w') - lastPrintedStep (mgr boot) /\
    count is_info_line evs <= 21 /\
    count is_wdt_reset evs = 0.
Proof.
  apply (default_progress_lines_are_bounded
           [(0, 1000); (500, 1000); (1000, 1000)] boot).
  - repeat constructor; cbn; lia.
  - reflexivity.
  - cbn. lia.
Defined.

Lemma onOTAProgress_step progress total w :
  valid_report (progress, total) ->
  lastPercent (task w) mod 10 = 0 ->
  0 <= lastPercent (task w) <= 100 ->
  exists w' evs,
    OTATask.onOTAProgress progress total w = Some (tt, w') /\
    trace w' = trace w ++ evs /\
    lastPercent (task w') mod 10 = 0 /\
    lastPercent (task w) <= lastPercent (task w') <= 100 /\
    10 * count is_info_line evs
      <= lastPercent (task w') - lastPercent (task w)
         + 10 * fulls [(progress, total)] /\
    count is_wdt_reset evs = 1.
Proof.
  intros [Hp Ht] Hmod Hb. cbn [fst snd] in *.
  destruct (percent_of_bounds progress total Hp Ht) as (pct & Hpct & Hpb).
  destruct (onOTAProgress_run progress total pct w Hpct) as (w' & R & T & L).
  exists w'. eexists. split; [exact R|]. split; [exact T|].
  rewrite L. unfold fulls, is_full_report. cbn [filter fst snd].
  rewrite Hpct. unfold decile_due in *.
  assert (Hadd : int_add (lastPercent (task w)) 10 = lastPercent (task w) + 10)
    by (apply to_int_small; lia).
  rewrite Hadd.
  destruct (pct >=? lastPercent (task w) + 10) eqn:Edue; cbn [orb].
  - rewrite Z.geb_leb in Edue. apply Z.leb_le in Edue.
    destruct (floor_step pct (lastPercent (task w)) 10
                ltac:(lia) ltac:(lia) Hmod Edue) as (F1 & F2 & F3).
    unfold int_sub. rewrite to_int_small by lia.
    compute_counts.
    destruct (pct =? 100); cbn [List.length Z.of_nat];
      repeat split; try assumption; lia.
  - destruct (Z.eqb_spec pct 100) as [E|N].
    + subst pct. change (int_sub 100 (Z.rem 100 10)) with 100.
      compute_counts. cbn [List.length Z.of_nat].
      repeat split; try reflexivity; lia.
    + compute_counts. cbn [List.length Z.of_nat].
      repeat split; try assumption; lia.
Qed.

Lemma fulls_cons r rs : fulls (r :: rs) = fulls [r] + fulls rs.
Proof.
  unfold fulls. cbn [filter]. destruct (is_full_report r); cbn [List.length]; lia.
Qed.

(** X7. Over any sequence of reports of a transfer (each with
    [0 < total] and [progress <= total]), the task's progress callback
    [onOTAProgress] never fails and feeds the watchdog exactly once per
    report.  [lastPercent] stays a multiple of ten between 0 and 100 and
    never decreases, and every line logged either raises it by at least
    10 or belongs to a report at 100 percent: the number of lines is at
    most 10 plus the number of reports at 100 percent. *)
Theorem task_progress_lines_are_bounded :
  forall rs w,
    Forall valid_report rs ->
    lastPercent (task w) mod 10 = 0 ->
    0 <= lastPercent (task w) <= 100 ->
    exists w' evs,
      reports OTATask.onOTAProgress rs w = Some (tt, w') /\
      trace w' = trace w ++ evs /\
      lastPercent (task w') mod 10 = 0 /\
      lastPercent (task w) <= lastPercent (task w') <= 100 /\
      10 * count is_info_line evs
        <= lastPercent (task w') - lastPercent (task w) + 10 * fulls rs /\
      count is_info_line evs <= 10 + fulls rs /\
      count is_wdt_reset evs = Z.of_nat (List.length rs).
Proof.
  induction rs as [|[p t] rs IH]; intros w Hvalid Hmod Hb.
  - exists w, []. rewrite app_nil_r. compute_counts.
    change (fulls []) with 0. cbn [List.length Z.of_nat].
    repeat split; try assumption; lia.
  - inversion Hvalid as [|r rs' Hr Hrs]; subst.
    destruct (onOTAProgress_step p t w Hr Hmod Hb)
      as (w1 & e1 & R1 & T1 & M1 & B1 & C1 & W1).
    destruct (IH w1 Hrs M1 ltac:(lia))
      as (w2 & e2 & R2 & T2 & M2 & B2 & C2 & _ & W2).
    exists w2, (e1 ++ e2).
    split; [cbn [reports]; unfold bind; rewrite R1; exact R2|].
    split; [rewrite T2, T1, app_assoc; reflexivity|].
    rewrite !count_app, (fulls_cons (p, t) rs).
    cbn [List.length]. rewrite Nat2Z.inj_succ.
    repeat split; try assumption; lia.
Qed.

Lemma task_progress_lines_are_bounded_witness :
  exists w' evs,
    reports OTATask.onOTAProgress [(0, 1000); (500, 1000); (1000, 1000)] boot
      = Some (tt, w') /\
    trace w' = trace boot ++ evs /\
    lastPercent (task w') mod 10 = 0 /\
    lastPercent (task boot) <= lastPercent (task w') <= 100 /\
    10 * count is_info_line evs
      <= lastPercent (task w') - lastPercent (task boot)
         + 10 * fulls [(0, 1000); (500, 1000); (1000, 1000)] /\
    count is_info_line evs
      <= 10 + fulls [(0, 1000); (500, 1000); (1000, 1000)] /\
    count is_wdt_reset evs
      = Z.of_nat (List.length [(0, 1000); (500, 1000); (1000, 1000)]).
Proof.
  apply (task_progress_lines_are_bounded
           [(0, 1000); (500, 1000); (1000, 1000)] boot).
  - repeat constructor; cbn; lia.
  - reflexivity.
  - cbn. lia.
Defined.

(** ** The percentage and the 32-bit product *)

(** X8. For a report with [0 < total < 2^32] and [progress <= total],
    the percentage both progress handlers compute is exactly
    [progress * 100 / total] as long as [progress * 100] fits in 32 bits
    (progress up to 42949672 bytes).  Beyond that the product wraps
    around and the computed percentage is at least one point below the
    true one. *)
Theorem percent_is_exact_below_overflow :
  forall progress total,
    0 <= progress <= total -> 0 < total < 2 ^ 32 ->
    exists pct,
      OTAManager.percent_of progress total = Some pct /\
      (progress * 100 < 2 ^ 32 -> pct = progress * 100 / total) /\
      (2 ^ 32 <= progress * 100 -> pct <= progress * 100 / total - 1).
Proof.
  intros progress total Hp Ht.
  destruct (percent_of_bounds progress total Hp Ht) as (pct & Hpct & Hb).
  exists pct. split; [exact Hpct|].
  unfold OTAManager.percent_of in Hpct.
  destruct (Z.eqb_spec total 0) as [E|_]; [lia|].
  inversion Hpct as [Hq]. clear Hpct.
  unfold to_uint, UINT_MAX1 in *.
  assert (Hv : 0 <= (progress * 100) mod 2 ^ 32 < 2 ^ 32)
    by (apply Z.mod_pos_bound; lia).
  assert (Hsmall : (progress * 100) mod 2 ^ 32 / total < 2 ^ 31).
  { apply Z.div_lt_upper_bound; [lia|].
    destruct (Z_lt_le_dec (progress * 100) (2 ^ 32)) as [Hs|Hl].
    - rewrite Z.mod_small by lia. nia.
    - nia. }
  assert (Hnn : 0 <= (progress * 100) mod 2 ^ 32 / total)
    by (apply Z.div_pos; lia).
  rewrite to_int_small by lia. split.
  - intros Hfit. rewrite Z.mod_small by lia. reflexivity.
  - intros Hwrap.
    assert (Hle : (progress * 100) mod 2 ^ 32 <= progress * 100 - 2 ^ 32).
    { rewrite Z.mod_eq by lia.
      assert (1 <= progress * 100 / 2 ^ 32)
        by (apply Z.div_le_lower_bound; lia).
      nia. }
    assert (Hstep : (progress * 100 - total) / total
                    = progress * 100 / total - 1).
    { replace (progress * 100 - total) with (progress * 100 + (-1) * total)
        by lia.
      rewrite Z.div_add by lia. lia. }
    rewrite <- Hstep. apply Z.div_le_mono; lia.
Qed.

Lemma percent_is_exact_below_overflow_witness :
  exists pct,
    OTAManager.percent_of 50000000 100000000 = Some pct /\
    (50000000 * 100 < 2 ^ 32 -> pct = 50000000 * 100 / 100000000) /\
    (2 ^ 32 <= 50000000 * 100 -> pct <= 50000000 * 100 / 100000000 - 1).
Proof.
  apply (percent_is_exact_below_overflow 50000000 100000000); lia.
Defined.

(** ** [OTATask::init] *)

Ltac split_ifs_lit :=
  repeat match goal with
         | |- context [if ?b then _ else _] =>
             lazymatch type of b with bool => destruct b eqn:?; run_lit end
         end.

(** X9. [OTATask::init], run in a reachable world, always creates a
    fresh status mutex first.  It returns true exactly when that creation
    succeeds and the manager's mutex exists or can be created next; then
    [otaStatusMutex] is the new handle, the manager is initialised with
    the project's hostname and password and with [isNetworkConnected] as
    its network check, and the four slots hold the task's handlers.  When
    the status mutex cannot be created, [init] returns false with
    [otaStatusMutex] null and without having touched [OTAManager] or the
    transfer library.  In no case does it change
    [otaUpdateInProgress]. *)
Theorem task_init_outcome :
  forall env w,
    reachable w ->
    exists r w',
      OTATask.init env w = Some (r, w') /\
      otaUpdateInProgress (task w') = otaUpdateInProgress (task w) /\
      (r = true <->
         alloc_ok env (next_handle w) = true /\
         (mutex (mgr w) <> None \/ alloc_ok env (S (next_handle w)) = true)) /\
      (r = true ->
         otaStatusMutex (task w') = Some (next_handle w) /\
         initialized (mgr w') = true /\
         networkCheckCallback (mgr w') = Some OTATask.fn_isNetworkConnected /\
         _hostname (ota w') = OTATask.DEVICE_HOSTNAME /\
         _password (ota w') = OTATask.OTA_PASSWORD /\
         slot SlotStart (ota w') = Some OTATask.fn_onOTAStart /\
         slot SlotEnd (ota w') = Some OTATask.fn_onOTAEnd /\
         slot SlotProgress (ota w') = Some OTATask.fn_onOTAProgress /\
         slot SlotError (ota w') = Some OTATask.fn_onOTAError) /\
      (alloc_ok env (next_handle w) = false ->
         r = false /\ otaStatusMutex (task w') = None /\
         mgr w' = mgr w /\ ota w' = ota w).
Proof.
  intros env w Hreach.
  assert (Hlock := reachable_lock_ready w Hreach). unfold lock_ready in Hlock.
  clear Hreach. open_world w. open_env env.
  unfold OTATask.init, OTATask.init_manager. run_lit.
  destruct (e_alloc w_next) eqn:E1; run_lit.
  - destruct w_mutex as [h|]; run_lit.
    + destruct w_initialized; run_lit.
      all: eexists; eexists; split; [reflexivity|].
      all: split; [reflexivity|].
      all: split; [split; [intros _; split; [reflexivity | left; discriminate]
                          | reflexivity]|].
      all: split; [intros _; repeat split|].
      all: discriminate.
    + destruct (e_alloc (S w_next)) eqn:E2; run_lit.
      * destruct w_initialized; run_lit.
        all: eexists; eexists; split; [reflexivity|].
        all: split; [reflexivity|].
        all: split; [split; [intros _; split; [reflexivity | right; reflexivity]
                            | reflexivity]|].
        all: split; [intros _; repeat split|].
        all: discriminate.
      * destruct w_initialized;
          [contradiction (Hlock eq_refl); reflexivity|].
        run_lit. eexists; eexists. split; [reflexivity|].
        split; [reflexivity|].
        split; [split; [discriminate
                       | intros [_ [H|H]];
                         [contradiction H; reflexivity | discriminate H]]|].
        split; discriminate.
  - eexists; eexists. split; [reflexivity|].
    split; [reflexivity|].
    split; [split; [discriminate | intros [H _]; discriminate H]|].
    split; [discriminate|].
    intros _. repeat split.
Qed.

Lemma task_init_outcome_witness :
  exists r w',
    OTATask.init sample_env boot = Some (r, w') /\
    otaUpdateInProgress (task w') = otaUpdateInProgress (task boot) /\
    (r = true <->
       alloc_ok sample_env (next_handle boot) = true /\
       (mutex (mgr boot) <> None \/
        alloc_ok sample_env (S (next_handle boot)) = true)) /\
    (r = true ->
       otaStatusMutex (task w') = Some (next_handle boot) /\
       initialized (mgr w') = true /\
       networkCheckCallback (mgr w') = Some OTATask.fn_isNetworkConnected /\
       _hostname (ota w') = OTATask.DEVICE_HOSTNAME /\
       _password (ota w') = OTATask.OTA_PASSWORD /\
       slot SlotStart (ota w') = Some OTATask.fn_onOTAStart /\
       slot SlotEnd (ota w') = Some OTATask.fn_onOTAEnd /\
       slot SlotProgress (ota w') = Some OTATask.fn_onOTAProgress /\
       slot SlotError (ota w') = Some OTATask.fn_onOTAError) /\
    (alloc_ok sample_env (next_handle boot) = false ->
       r = false /\ otaStatusMutex (task w') = None /\
       mgr w' = mgr boot /\ ota w' = ota boot).
Proof.
  apply (task_init_outcome sample_env boot). exact reach_boot.
Defined.

(** ** [OTATask::start] creates the task once *)

Lemma keeps_started_refl w : keeps_started w w.
Proof. intros H. exact H. Qed.

Lemma keeps_started_trans a b c :
  keeps_started a b -> keeps_started b c -> keeps_started a c.
Proof. unfold keeps_started. auto. Qed.

Lemma started_inv_emit e m o t s n tr :
  is_task_created e = false ->
  started_inv (mkWorld m o t s n tr) ->
  started_inv (mkWorld m o t s n (tr ++ [e])).
Proof.
  unfold started_inv, tasks_created. cbn [trace task]. intros He H.
  rewrite filter_app. cbn [filter]. rewrite He, app_nil_r. exact H.
Qed.

Lemma keeps_started_start env : respects keeps_started (OTATask.start env).
Proof.
  intros w a w' Hrun. open_world w. open_env env.
  unfold keeps_started, started_inv, tasks_created.
  destruct w_started, e_taskOk; run_in Hrun; inversion Hrun; subst;
    cbn [trace task started]; intros [H0 H1];
    rewrite <- ?app_assoc; cbn [app];
    rewrite filter_app; cbn [filter is_task_created];
    rewrite ?app_nil_r; try (split; assumption).
  specialize (H0 eq_refl). rewrite length_app, H0.
  split; [discriminate | apply le_n].
Qed.

#[local] Hint Resolve keeps_started_start : frames.

Ltac started_prim :=
  intros w0 H0; destruct w0;
  first [ exact H0
        | apply started_inv_emit; [reflexivity | exact H0] ].

Lemma keeps_started_step env op : respects keeps_started (step env op).
Proof.
  destruct op; cbn [step];
    frame keeps_started_refl keeps_started_trans started_prim.
Qed.

(** X10. The OTA task is created at most once: in every reachable world
    the trace holds at most one successful [xTaskCreate], and none while
    the [started] flag of [OTATask::start] is false. *)
Theorem ota_task_created_at_most_once :
  forall w,
    reachable w ->
    (tasks_created w <= 1)%nat /\
    (started (task w) = false -> tasks_created w = 0%nat).
Proof.
  intros w Hreach.
  assert (Hinv : started_inv w).
  { induction Hreach as [|w env op w' _ IH Hstep].
    - split; [reflexivity | apply le_S, le_n].
    - unfold exec in Hstep.
      destruct (step env op w) as [[a w1]|] eqn:E; [|discriminate].
      inversion Hstep; subst w1.
      exact (keeps_started_step env op w a w' E IH). }
  destruct Hinv as [H0 H1]. split; assumption.
Qed.

Lemma ota_task_created_at_most_once_witness :
  let w := after (step sample_env TaskStart)
                 (after (step sample_env TaskStart) boot) in
  (tasks_created w <= 1)%nat /\
  (started (task w) = false -> tasks_created w = 0%nat).
Proof.
  apply (ota_task_created_at_most_once
           (after (step sample_env TaskStart)
                  (after (step sample_env TaskStart) boot))).
  apply (reach_step (after (step sample_env TaskStart) boot) sample_env
           TaskStart).
  - apply (reach_step boot sample_env TaskStart).
    + exact reach_boot.
    + vm_compute. reflexivity.
  - vm_compute. reflexivity.
Defined.

(** ** How an update attempt ends *)

Lemma onOTAStart_effect env w :
  exists w',
    OTATask.onOTAStart env w = Some (tt, w') /\
    otaUpdateInProgress (task w') = true /\
    suspended (sensor w') =
      (if sem_take_ok env then true else suspended (sensor w)) /\
    mgr w' = mgr w /\ ota w' = ota w.
Proof.
  unfold OTATask.onOTAStart, SensorTask.suspend, SensorTask.write_suspended.
  destruct (ENABLE_STATUS_LED (build env)), (sem_take_ok env);
    open_world w; run; eexists; repeat split.
Qed.

Lemma onOTAError_effect env e w :
  exists w' evs,
    OTATask.onOTAError env e w = Some (tt, w') /\
    trace w' = trace w ++ evs /\
    otaUpdateInProgress (task w') = false /\
    suspended (sensor w') =
      (if sem_take_ok env then false else suspended (sensor w)) /\
    ~ In EvRestart evs /\
    mgr w' = mgr w /\ ota w' = ota w.
Proof.
  unfold OTATask.onOTAError, SensorTask.resume, SensorTask.write_suspended.
  destruct (ENABLE_STATUS_LED (build env)), (sem_take_ok env);
    open_world w; run; eexists; eexists.
  all: split; [reflexivity|].
  all: split; [norm_trace; reflexivity|].
  all: repeat split.
  all: intros H; cbn in H;
    repeat (destruct H as [H|H]; [discriminate H|]); exact H.
Qed.

Lemma onOTAEnd_effect env w :
  exists w' evs,
    OTATask.onOTAEnd env w = Some (tt, w') /\
    trace w' = trace w ++ evs /\
    otaUpdateInProgress (task w') = false /\
    last evs EvWdtReset = EvRestart /\
    sensor w' = sensor w.
Proof.
  unfold OTATask.onOTAEnd.
  destruct (ENABLE_STATUS_LED (build env));
    open_world w; run; eexists; eexists.
  all: split; [reflexivity|].
  all: split; [norm_trace; reflexivity|].
  all: repeat split.
Qed.

(** X11. An update attempt that fails leaves the device running and
    ready for another one: after [onOTAStart] (flag true, sensor task
    suspended) a following [onOTAError] clears the flag, resumes the
    sensor task, restarts nothing, and leaves [OTAManager] and the
    transfer library's configuration untouched.  An attempt that succeeds
    ends in [onOTAEnd], which clears the flag and whose last action is
    [ESP.restart()]; it does not resume the sensor task.  The suspension
    and the resumption take effect only if [SensorTask] obtains its data
    mutex within 100 ms: on a timeout the [suspended] flag keeps its value
    (so a timeout in [onOTAError] leaves the sensor task suspended). *)
Theorem update_attempt_outcomes :
  forall env1 env2 e w,
    exists w1,
      OTATask.onOTAStart env1 w = Some (tt, w1) /\
      otaUpdateInProgress (task w1) = true /\
      suspended (sensor w1) =
        (if sem_take_ok env1 then true else suspended (sensor w)) /\
      (exists w2 evs,
         OTATask.onOTAError env2 e w1 = Some (tt, w2) /\
         trace w2 = trace w1 ++ evs /\
         otaUpdateInProgress (task w2) = false /\
         suspended (sensor w2) =
           (if sem_take_ok env2 then false else suspended (sensor w1)) /\
         ~ In EvRestart evs /\
         mgr w2 = mgr w /\ ota w2 = ota w) /\
      (exists w3 evs,
         OTATask.onOTAEnd env2 w1 = Some (tt, w3) /\
         trace w3 = trace w1 ++ evs /\
         otaUpdateInProgress (task w3) = false /\
         last evs EvWdtReset = EvRestart /\
         suspended (sensor w3) = suspended (sensor w1)).
Proof.
  intros env1 env2 e w.
  destruct (onOTAStart_effect env1 w) as (w1 & R1 & F1 & S1 & M1 & O1).
  exists w1. repeat (split; [assumption|]). split.
  - destruct (onOTAError_effect env2 e w1)
      as (w2 & evs & R2 & T2 & F2 & S2 & N2 & M2 & O2).
    exists w2, evs. rewrite <- M1, <- O1. auto 10.
  - destruct (onOTAEnd_effect env2 w1) as (w3 & evs & R3 & T3 & F3 & L3 & S3).
    exists w3, evs. rewrite S3. auto 10.
Qed.

(** ** One pass of the task loop *)





(** ** The status LED *)

Ltac open_led s :=
  destruct s as [l_pin l_state l_last l_rate l_blinking l_pattern l_blinks
                 l_prate l_pause l_step l_gpio];
  cbn [StatusLed.ledPin StatusLed.ledState StatusLed.lastChangeTime
       StatusLed.currentBlinkRate StatusLed.isBlinking StatusLed.isPattern
       StatusLed.patternBlinks StatusLed.patternBlinkRate
       StatusLed.patternPauseTime StatusLed.currentPatternStep StatusLed.gpio]
    in *.

Lemma pin_level_write g pin l :
  StatusLed.pin_level (g ++ [StatusLed.DigitalWrite pin l]) = l.
Proof. unfold StatusLed.pin_level. rewrite fold_left_app. reflexivity. Qed.

Lemma pin_level_mode g pin :
  StatusLed.pin_level (g ++ [StatusLed.PinModeOutput pin])
  = StatusLed.pin_level g.
Proof. unfold StatusLed.pin_level. rewrite fold_left_app. reflexivity. Qed.

Ltac led_simpl :=
  cbn [StatusLed.ledPin StatusLed.ledState StatusLed.lastChangeTime
       StatusLed.currentBlinkRate StatusLed.isBlinking StatusLed.isPattern
       StatusLed.patternBlinks StatusLed.patternBlinkRate
       StatusLed.patternPauseTime StatusLed.currentPatternStep StatusLed.gpio
       andb negb].

Lemma led_inv_call c s : led_inv s -> led_inv (StatusLed.call c s).
Proof.
  unfold led_inv. open_led s. intros (Hx & Hp & Hs).
  destruct c; cbn [StatusLed.call].
  - unfold StatusLed.init, StatusLed.setOff; led_simpl.
    rewrite pin_level_write. auto.
  - unfold StatusLed.setOn; led_simpl. rewrite pin_level_write. auto.
  - unfold StatusLed.setOff; led_simpl. rewrite pin_level_write. auto.
  - unfold StatusLed.setBlink; led_simpl. auto.
  - unfold StatusLed.setPattern; led_simpl. rewrite pin_level_write.
    repeat split; lia.
  - unfold StatusLed.update, StatusLed.toggle, StatusLed.restart.
    cbv zeta. led_simpl.
    assert (Hu := Z.mod_pos_bound (l_step + 1) 256 ltac:(lia)).
    unfold StatusLed.to_u8.
    repeat match goal with
           | |- context [if ?b then _ else _] => destruct b eqn:?
           end;
      led_simpl; rewrite ?pin_level_write; repeat split;
      try assumption; try reflexivity; try lia; try discriminate.
Qed.

(** X13. Whatever sequence of calls of the LED class a program makes
    after power-on ([init], [setOn], [setOff], [setBlink], [setPattern],
    [update] at any times), the LED is never in blink mode and pattern
    mode at once, [ledState] is the level the pin was last driven to, and
    the pattern step is a valid [uint8_t]. *)
Theorem led_state_mirrors_pin :
  forall cs,
    let s := StatusLed.calls cs StatusLed.power_on in
    StatusLed.isBlinking s && StatusLed.isPattern s = false /\
    StatusLed.pin_level (StatusLed.gpio s) = StatusLed.ledState s /\
    0 <= StatusLed.currentPatternStep s < 256.
Proof.
  intros cs.
  assert (H : forall s0, led_inv s0 -> led_inv (StatusLed.calls cs s0)).
  { induction cs as [|c cs IH]; intros s0 H0; [exact H0|].
    cbn. apply IH. apply led_inv_call. exact H0. }
  apply H. repeat split; cbn; lia.
Qed.

Lemma pattern_inv_update n now s :
  0 <= n < 256 -> pattern_inv n s -> pattern_inv n (StatusLed.update now s).
Proof.
  unfold pattern_inv. open_led s.
  intros Hn (Hp & Hb & Hk & Hl & Hs & Hlt). subst l_pattern l_blinking l_blinks.
  unfold StatusLed.update, StatusLed.toggle, StatusLed.restart,
         StatusLed.to_u8.
  cbv zeta. led_simpl.
  destruct (Z.ltb_spec l_step (n * 2)) as [Hblink|Hpause].
  - destruct (_ >=? l_prate); led_simpl;
      [|repeat split; try reflexivity; try assumption; lia].
    assert (Heven : Z.even ((l_step + 1) mod 256) = negb (Z.even l_step)).
    { destruct (Z.eq_dec l_step 255) as [->|Hne]; [reflexivity|].
      rewrite Z.mod_small by lia.
      rewrite Z.add_1_r, Z.even_succ, Z.negb_even. reflexivity. }
    assert (Hu := Z.mod_pos_bound (l_step + 1) 256 ltac:(lia)).
    repeat split; try reflexivity; try lia.
    + rewrite Heven, Hl. reflexivity.
    + intros Hsmall. rewrite Z.mod_small by lia. lia.
  - destruct (_ >=? l_pause); led_simpl;
      repeat split; try reflexivity; try assumption; lia.
Qed.

(** X14. After [setPattern(n, ...)], whatever the times of the
    following [update] calls: the LED is lit exactly when the pattern step
    is even; for [n < 128] the step never exceeds [2 n], and while it is
    [2 n] (the pause after the blinks) the LED is lit.  For [n >= 128]
    the step, a [uint8_t], always stays below [2 n]: the pause is never
    reached. *)
Theorem pattern_follows_step_parity :
  forall s numBlinks blinkRate pauseTime t0 times,
    let n := StatusLed.to_u8 numBlinks in
    let s' := StatusLed.updates times
                (StatusLed.setPattern numBlinks blinkRate pauseTime t0 s) in
    StatusLed.isPattern s' = true /\
    StatusLed.isBlinking s' = false /\
    StatusLed.ledState s' = Z.even (StatusLed.currentPatternStep s') /\
    (n < 128 -> StatusLed.currentPatternStep s' <= 2 * n) /\
    (2 * n <= StatusLed.currentPatternStep s' -> StatusLed.ledState s' = true) /\
    (128 <= n -> StatusLed.currentPatternStep s' < 2 * n).
Proof.
  intros s numBlinks blinkRate pauseTime t0 times n s'.
  assert (Hn : 0 <= n < 256) by (apply Z.mod_pos_bound; lia).
  assert (H : pattern_inv n s').
  { subst s'.
    assert (H0 : pattern_inv n
                   (StatusLed.setPattern numBlinks blinkRate pauseTime t0 s)).
    { unfold pattern_inv, StatusLed.setPattern. led_simpl.
      repeat split; try reflexivity; lia. }
    revert H0. generalize (StatusLed.setPattern numBlinks blinkRate pauseTime t0 s).
    induction times as [|t times IH]; intros s0 H0; [exact H0|].
    cbn. apply IH. apply pattern_inv_update; assumption. }
  destruct H as (Hp & Hb & Hk & Hl & Hs & Hlt).
  repeat split; try assumption.
  - intros Hge. rewrite Hl.
    destruct (Z_lt_le_dec n 128) as [Hsmall|Hbig]; [|lia].
    specialize (Hlt Hsmall).
    replace (StatusLed.currentPatternStep s') with (2 * n) by lia.
    rewrite Z.even_mul. reflexivity.
  - lia.
Qed.

Lemma ticks_succ t0 rate k :
  StatusLed.ticks t0 rate (S k)
  = StatusLed.ticks t0 rate k ++ [t0 + Z.of_nat (S k) * rate].
Proof.
  unfold StatusLed.ticks. rewrite seq_S, map_app. reflexivity.
Qed.

Lemma updates_snoc times t s :
  StatusLed.updates (times ++ [t]) s
  = StatusLed.update t (StatusLed.updates times s).
Proof. unfold StatusLed.updates. rewrite fold_left_app. reflexivity. Qed.

Lemma elapsed_from a d :
  0 <= d < 2 ^ 32 -> to_uint (to_uint (a + d) - to_uint a) = d.
Proof.
  intros Hd. apply elapsed_since; [exact Hd|].
  unfold to_uint, UINT_MAX1. rewrite Zplus_mod_idemp_l. reflexivity.
Qed.

Lemma blinking_at_tick n rate pause t0 pin len k s :
  0 <= n < 128 -> 0 <= rate < 65536 -> Z.of_nat (S k) <= 2 * n ->
  blinking_at n rate pause t0 pin len k s ->
  blinking_at n rate pause t0 pin len (S k)
              (StatusLed.update (t0 + Z.of_nat (S k) * rate) s).
Proof.
  intros Hn Hrate Hk. unfold blinking_at. open_led s.
  intros (Hb & Hp & Hbl & Hpr & Hpp & Hpin & Hs & Hl & Ht & Hg). subst.
  assert (Hnext : t0 + Z.of_nat (S k) * rate
                  = t0 + Z.of_nat k * rate + rate) by lia.
  rewrite Hnext.
  unfold StatusLed.update, StatusLed.toggle, StatusLed.to_u8.
  cbv zeta. led_simpl.
  rewrite elapsed_from by lia.
  destruct (Z.ltb_spec (Z.of_nat k) (n * 2)) as [_|Hge]; [|lia].
  destruct (Z.geb_spec rate rate) as [_|Hlt]; [|lia].
  led_simpl. rewrite Z.mod_small by lia.
  repeat split; try reflexivity.
  - lia.
  - rewrite Nat2Z.inj_succ, Z.even_succ, <- Z.negb_even. reflexivity.
  - rewrite length_app, Hg. cbn [List.length]. lia.
Qed.

(** X15. A pattern of [n < 128] blinks started at time [t0] and
    serviced by [update] once per [blinkRate]: after [k <= 2 n] such
    calls the step is [k], the LED is lit exactly when [k] is even, and
    [k] pin writes have been made.  Once the step is [2 n], an [update]
    within [pauseTime] of the last change does nothing, and the first one
    at or after [pauseTime] restarts the pattern at step 0 with the LED
    lit. *)
Theorem pattern_blinks_then_pauses :
  forall s n rate pause t0 k,
    0 <= n < 128 -> 0 <= rate < 65536 -> 0 <= pause < 65536 ->
    Z.of_nat k <= 2 * n ->
    let sk := StatusLed.updates (StatusLed.ticks t0 rate k)
                (StatusLed.setPattern n rate pause t0 s) in
    StatusLed.currentPatternStep sk = Z.of_nat k /\
    StatusLed.ledState sk = Z.even (Z.of_nat k) /\
    List.length (StatusLed.gpio sk)
      = (List.length (StatusLed.gpio s) + 1 + k)%nat /\
    (Z.of_nat k = 2 * n ->
     forall d, 0 <= d < 2 ^ 32 ->
       let s' := StatusLed.update (t0 + Z.of_nat k * rate + d) sk in
       if d <? pause then s' = sk
       else StatusLed.currentPatternStep s' = 0 /\
            StatusLed.ledState s' = true /\
            StatusLed.gpio s'
              = StatusLed.gpio sk
                ++ [StatusLed.DigitalWrite (StatusLed.ledPin s) true]).
Proof.
  intros s n rate pause t0 k Hn Hrate Hpause Hk sk.
  assert (H : blinking_at n rate pause t0 (StatusLed.ledPin s)
                (List.length (StatusLed.gpio s)) k sk).
  { subst sk. induction k as [|k IH].
    - unfold blinking_at, StatusLed.setPattern, StatusLed.ticks,
             StatusLed.updates, StatusLed.to_u8, StatusLed.to_u16.
      cbn [seq map fold_left]. led_simpl.
      rewrite !Z.mod_small by lia.
      repeat split; try reflexivity.
      + f_equal. cbn. lia.
      + rewrite length_app. cbn [List.length]. lia.
    - rewrite ticks_succ, updates_snoc.
      apply blinking_at_tick; try assumption.
      apply IH. lia. }
  clearbody sk. unfold blinking_at in H. open_led sk.
  destruct H as (Hb & Hp & Hbl & Hpr & Hpp & Hpin & Hs & Hl & Ht & Hg).
  subst. repeat split; try reflexivity; try assumption.
  intros Hfull d Hd.
  unfold StatusLed.update, StatusLed.restart. cbv zeta. led_simpl.
  rewrite elapsed_from by lia.
  destruct (Z.ltb_spec (Z.of_nat k) (n * 2)) as [Hlt|_]; [lia|].
  destruct (Z.ltb_spec d pause) as [Hearly|Hlate].
  - destruct (Z.geb_spec d pause) as [Hge|_]; [lia | reflexivity].
  - destruct (Z.geb_spec d pause) as [_|Hlt]; [|lia].
    led_simpl. repeat split; reflexivity.
Qed.

Lemma pattern_blinks_then_pauses_witness :
  let sk := StatusLed.updates (StatusLed.ticks 1000 100 4)
              (StatusLed.setPattern 2 100 1000 1000 StatusLed.power_on) in
  StatusLed.currentPatternStep sk = Z.of_nat 4 /\
  StatusLed.ledState sk = Z.even (Z.of_nat 4) /\
  List.length (StatusLed.gpio sk)
    = (List.length (StatusLed.gpio StatusLed.power_on) + 1 + 4)%nat /\
  (Z.of_nat 4 = 2 * 2 ->
   forall d, 0 <= d < 2 ^ 32 ->
     let s' := StatusLed.update (1000 + Z.of_nat 4 * 100 + d) sk in
     if d <? 1000 then s' = sk
     else StatusLed.currentPatternStep s' = 0 /\
          StatusLed.ledState s' = true /\
          StatusLed.gpio s'
            = StatusLed.gpio sk
              ++ [StatusLed.DigitalWrite
                    (StatusLed.ledPin StatusLed.power_on) true]).
Proof.
  apply (pattern_blinks_then_pauses StatusLed.power_on 2 100 1000 1000 4);
    cbn; lia.
Defined.

(** X16. In blink mode (after [setBlink]), an [update] issued [d] ms
    after the last change, [d] being counted modulo 2^32, toggles the LED
    and drives the pin exactly when [d] is at least the blink rate, and
    then the time of the call becomes the time of the last change; an
    earlier [update] changes nothing.  So [setBlink] itself never drives
    the pin, and blinking keeps its rhythm when [millis()] wraps around.
    With neither mode set (after [setOn] or [setOff]) no sequence of
    [update] calls changes anything. *)
Theorem blink_toggles_on_time :
  forall s,
    (forall blinkRate t0 d,
       0 <= d < 2 ^ 32 ->
       let s0 := StatusLed.setBlink blinkRate t0 s in
       let s1 := StatusLed.update (t0 + d) s0 in
       StatusLed.gpio s0 = StatusLed.gpio s /\
       StatusLed.ledState s0 = StatusLed.ledState s /\
       if StatusLed.to_u16 blinkRate <=? d then
         StatusLed.ledState s1 = negb (StatusLed.ledState s) /\
         StatusLed.gpio s1
           = StatusLed.gpio s
             ++ [StatusLed.DigitalWrite (StatusLed.ledPin s)
                                        (negb (StatusLed.ledState s))] /\
         StatusLed.lastChangeTime s1 = to_uint (t0 + d) /\
         StatusLed.isBlinking s1 = true
       else s1 = s0) /\
    (forall times,
       StatusLed.updates times (StatusLed.setOn s) = StatusLed.setOn s /\
       StatusLed.updates times (StatusLed.setOff s) = StatusLed.setOff s).
Proof.
  intros s. split.
  - intros blinkRate t0 d Hd s0 s1. subst s0 s1.
    unfold StatusLed.setBlink, StatusLed.update, StatusLed.toggle.
    cbv zeta. led_simpl. rewrite elapsed_from by exact Hd.
    split; [reflexivity|]. split; [reflexivity|].
    rewrite Z.geb_leb.
    destruct (StatusLed.to_u16 blinkRate <=? d); led_simpl;
      repeat split; reflexivity.
  - intros times. split.
    + induction times as [|t times IH]; [reflexivity|].
      cbn [StatusLed.updates fold_left] in *. exact IH.
    + induction times as [|t times IH]; [reflexivity|].
      cbn [StatusLed.updates fold_left] in *. exact IH.
Qed.

(** ** The uptime line of the monitoring task *)

(** X17. The days, hours, minutes and seconds that
    [MonitoringTask::logSystemHealth] prints add up to the whole seconds
    of [millis()]: hours are below 24, minutes and seconds below 60, and,
    [millis()] being 32 bits wide, days never exceed 49 (the printed
    uptime starts again from zero after 49 days 17:02:47). *)
Theorem uptime_fields_add_up :
  forall ms,
    let '(days, hours, minutes, seconds) := uptime_fields ms in
    days * 86400 + hours * 3600 + minutes * 60 + seconds = to_uint ms / 1000 /\
    0 <= days <= 49 /\ 0 <= hours < 24 /\
    0 <= minutes < 60 /\ 0 <= seconds < 60 /\
    to_uint ms / 1000 <= 4294967.
Proof.
  intros ms. unfold uptime_fields. cbv zeta.
  change (24 * 3600) with 86400.
  assert (Hms : 0 <= to_uint ms < 2 ^ 32)
    by (apply Z.mod_pos_bound; reflexivity).
  set (u := to_uint ms / 1000).
  assert (Hu : 0 <= u <= 4294967).
  { subst u. split; [apply Z.div_pos; lia|].
    apply Z.lt_succ_r. apply Z.div_lt_upper_bound; lia. }
  assert (Small : forall z, 0 <= z <= 4294967 -> to_uint z = z)
    by (intros z Hz; unfold to_uint, UINT_MAX1; apply Z.mod_small; lia).
  rewrite (Small u) by lia.
  assert (Hd := Z.div_mod u 86400 ltac:(lia)).
  assert (Hdr := Z.mod_pos_bound u 86400 ltac:(lia)).
  assert (Hdq : 0 <= u / 86400 <= 49).
  { split; [apply Z.div_pos; lia|].
    apply Z.lt_succ_r. apply Z.div_lt_upper_bound; lia. }
  rewrite (Small (u / 86400)) by lia.
  rewrite (Small (u mod 86400)) by lia.
  set (u1 := u mod 86400) in *.
  assert (Hh := Z.div_mod u1 3600 ltac:(lia)).
  assert (Hhr := Z.mod_pos_bound u1 3600 ltac:(lia)).
  assert (Hhq : 0 <= u1 / 3600 < 24).
  { split; [apply Z.div_pos; lia|]. apply Z.div_lt_upper_bound; lia. }
  rewrite (Small (u1 / 3600)) by lia.
  rewrite (Small (u1 mod 3600)) by lia.
  set (u2 := u1 mod 3600) in *.
  assert (Hm := Z.div_mod u2 60 ltac:(lia)).
  assert (Hmr := Z.mod_pos_bound u2 60 ltac:(lia)).
  assert (Hmq : 0 <= u2 / 60 < 60).
  { split; [apply Z.div_pos; lia|]. apply Z.div_lt_upper_bound; lia. }
  rewrite (Small (u2 / 60)) by lia.
  rewrite (Small (u2 mod 60)) by lia.
  repeat split; lia.
Qed.

(** ** Setters and a later [initialize] *)

(** X18. On an initialised manager a setter replaces what its slot
    held, so of two callbacks set one after the other the second is the
    one installed.  A later successful [initialize] installs its four
    default callbacks again: callbacks set through the setters do not
    survive a re-initialisation. *)
Theorem reinitialize_discards_custom_callbacks :
  forall k f g env hostname password port cb w,
    reachable w ->
    initialized (mgr w) = true ->
    accepted hostname port ->
    exists w1 w2 w3,
      setter k (Some f) w = Some (tt, w1) /\
      setter k (Some g) w1 = Some (tt, w2) /\
      slot k (ota w2) = Some g /\
      (forall k', k' <> k -> slot k' (ota w2) = slot k' (ota w)) /\
      OTAManager.initialize env hostname password port cb w2 = Some (tt, w3) /\
      forall k', slot k' (ota w3) = Some (default_callback k').
Proof.
  intros k f g env hostname password port cb w Hreach Hinit Hacc.
  assert (Hm := reachable_lock_ready w Hreach Hinit).
  destruct (setter_installs k f w Hinit) as (w1 & R1 & M1 & S1 & O1).
  assert (Hinit1 : initialized (mgr w1) = true) by (rewrite M1; exact Hinit).
  destruct (setter_installs k g w1 Hinit1) as (w2 & R2 & M2 & S2 & O2).
  assert (Hlock : can_lock env w2) by (left; rewrite M2, M1; exact Hm).
  destruct (initialize_accepted env hostname password port cb w2 Hacc Hlock)
    as (w3 & R3 & _ & _ & _ & _ & _ & _ & D1 & D2 & D3 & D4).
  exists w1, w2, w3. repeat (split; [assumption|]).
  split; [intros k' Hk; rewrite (O2 k' Hk); apply O1; exact Hk|].
  split; [exact R3|].
  intros k'. destruct k'; assumption.
Qed.

Lemma reinitialize_discards_custom_callbacks_witness :
  exists w1 w2 w3,
    setter SlotEnd (Some "first"%string) configured = Some (tt, w1) /\
    setter SlotEnd (Some "second"%string) w1 = Some (tt, w2) /\
    slot SlotEnd (ota w2) = Some "second"%string /\
    (forall k', k' <> SlotEnd -> slot k' (ota w2) = slot k' (ota configured)) /\
    OTAManager.initialize sample_env (Some "dev2"%string) None 3232 None w2
      = Some (tt, w3) /\
    forall k', slot k' (ota w3) = Some (default_callback k').
Proof.
  apply (reinitialize_discards_custom_callbacks SlotEnd "first"%string
           "second"%string sample_env (Some "dev2"%string) None 3232 None
           configured).
  - exact reachable_configured.
  - vm_compute. reflexivity.
  - split; [reflexivity | discriminate].
Defined.

Lemma pattern_follows_step_parity_witness :
  let n := StatusLed.to_u8 200 in
  let s' := StatusLed.updates [100; 200; 300]
              (StatusLed.setPattern 200 100 1000 0 StatusLed.power_on) in
  StatusLed.isPattern s' = true /\
  StatusLed.isBlinking s' = false /\
  StatusLed.ledState s' = Z.even (StatusLed.currentPatternStep s') /\
  (n < 128 -> StatusLed.currentPatternStep s' <= 2 * n) /\
  (2 * n <= StatusLed.currentPatternStep s' -> StatusLed.ledState s' = true) /\
  (128 <= n -> StatusLed.currentPatternStep s' < 2 * n).
Proof.
  exact (pattern_follows_step_parity StatusLed.power_on 200 100 1000 0
           [100; 200; 300]).
Defined.

Lemma blink_toggles_on_time_witness :
  let s := StatusLed.power_on in
  let s0 := StatusLed.setBlink 500 4294967000 s in
  let s1 := StatusLed.update (4294967000 + 600) s0 in
  StatusLed.gpio s0 = StatusLed.gpio s /\
  StatusLed.ledState s0 = StatusLed.ledState s /\
  if StatusLed.to_u16 500 <=? 600 then
    StatusLed.ledState s1 = negb (StatusLed.ledState s) /\
    StatusLed.gpio s1
      = StatusLed.gpio s
        ++ [StatusLed.DigitalWrite (StatusLed.ledPin s)
                                   (negb (StatusLed.ledState s))] /\
    StatusLed.lastChangeTime s1 = to_uint (4294967000 + 600) /\
    StatusLed.isBlinking s1 = true
  else s1 = s0.
Proof.
  apply (proj1 (blink_toggles_on_time StatusLed.power_on) 500 4294967000 600).
  lia.
Defined.
